(** * Flux-Utils: frame decoders, watchdog and acquisition loops

    A shallow embedding of the acquisition core of Flux-Utils
    ([blitz_client.py], [electricity_meter.py], [third_party/__init__.py])
    together with the properties its specification states about it.

    Conventions of the embedding:
    - a Python [bytes]/[bytearray] is a [list byte];
    - a Python [int] is a [Z]; a Python [float] is a binary64 [float]
      (the kernel's primitive floats, i.e. the arithmetic CPython uses);
    - a Python [dict] with string keys is a [gmap string pyval];
    - a raised exception is the [Raise] case of [result];
    - a loop that talks to a transport (BLE stack, serial port, clock)
      consumes a list of transport responses and produces the list of
      effects ([event]s) it performed, in order.  When the responses run
      out the loop is reported as still running. *)

From Stdlib Require Import ZArith List Bool Floats Lia.
From Stdlib Require Import Strings.Byte.
From stdpp Require Import base option list gmap strings.

#[local] Open Scope Z_scope.

(** ** Python preliminaries *)

Module Py.

(** The exception classes the programs distinguish.  [BaseExceptionOther]
    stands for the classes that do not derive from [Exception]
    (SystemExit, KeyboardInterrupt, CancelledError). *)
Inductive exn_class :=
| AssertionError
| IndexError
| TimeoutError
| BleakDeviceNotFoundError
| SerialException
| ExceptionOther
| BaseExceptionOther.

#[global] Instance exn_class_eq_dec : EqDecision exn_class.
Proof. solve_decision. Defined.

(** An exception object: its class and [str(e)]. *)
Record exn := Exn { exn_cls : exn_class; exn_str : string }.

#[global] Instance exn_eq_dec : EqDecision exn.
Proof. solve_decision. Defined.

(** [isinstance(e, cls)] for the leaf classes above. *)
Definition isinstance (e : exn) (c : exn_class) : bool :=
  bool_decide (exn_cls e = c).

(** [isinstance(e, Exception)]: what [except Exception] catches. *)
Definition is_Exception (e : exn) : bool :=
  negb (bool_decide (exn_cls e = BaseExceptionOther)).

(** [needle in haystack] on [str]. *)
Definition str_in (needle haystack : string) : bool :=
  match String.index 0 needle haystack with
  | Some _ => true
  | None => false
  end.

Inductive result (A : Type) :=
| Ok (a : A)
| Raise (e : exn).
Arguments Ok {A} a.
Arguments Raise {A} e.

(** Sequencing: an exception raised by the first statement skips the
    rest.  This gives [result] stdpp's notations [x ← m; k] and [m;; k]. *)
#[global] Instance result_bind : MBind result := λ A B k m,
  match m with
  | Ok a => k a
  | Raise e => Raise e
  end.

(** What a bare [assert] raises. *)
Definition assertion_error : exn := Exn AssertionError "".

(** [assert c] *)
Definition assert_ (c : bool) : result unit :=
  if c then Ok tt else Raise assertion_error.

(** [(data & m) != 0] *)
Definition has_bits (data m : Z) : bool := negb (Z.land data m =? 0).

Definition byte_val (b : byte) : Z := Z.of_N (Byte.to_N b).

#[global] Instance byte_eq_decision : EqDecision byte := Byte.byte_eq_dec.

(** [data[i]] on bytes: the integer value, or IndexError. *)
Definition getitem (data : list byte) (i : nat) : result Z :=
  match data !! i with
  | Some b => Ok (byte_val b)
  | None => Raise (Exn IndexError "index out of range")
  end.

(** [data[a:b]] for literal indices [0 <= a <= b]. *)
Definition slice (a b : nat) (data : list byte) : list byte :=
  take (b - a) (drop a data).

(** [int.from_bytes(data, byteorder='little', signed=False)] *)
Fixpoint from_bytes_little (data : list byte) : Z :=
  match data with
  | [] => 0
  | b :: rest => byte_val b + 256 * from_bytes_little rest
  end.

(** [int.from_bytes(data, byteorder='little', signed=True)] *)
Definition from_bytes_little_signed (data : list byte) : Z :=
  let u := from_bytes_little data in
  let bits := 8 * Z.of_nat (length data) in
  if (bits =? 0) then 0
  else if (2 ^ (bits - 1) <=? u) then u - 2 ^ bits else u.

(** [int.from_bytes(data, "big")] *)
Definition from_bytes_big (data : list byte) : Z :=
  fold_left (λ acc b, 256 * acc + byte_val b) data 0.

(** [float(n)] for an [int] below [2^63] in magnitude. *)
Definition float_of_int (n : Z) : float :=
  match n with
  | Z0 => 0%float
  | Zpos _ => PrimFloat.of_uint63 (Uint63.of_Z n)
  | Zneg p => PrimFloat.opp (PrimFloat.of_uint63 (Uint63.of_Z (Zpos p)))
  end.

End Py.

Export Py.

#[local] Set Warnings "-inexact-float".

(** ** blitz_client.py: the BLE multi-sensor decoder *)

Module Blitz.

(** [class BLESensorStatus] *)
Record BLESensorStatus := {
  is_htu21d_online : bool;
  is_bmp280_online : bool;
  is_gy302_online : bool;
  is_sht4x_online : bool;
  is_end_of_battery : bool;
}.

(** [BLESensorStatus.parse(self, data)], returning the updated object. *)
Definition parse (data : Z) : result BLESensorStatus :=
  assert_ ((0 <=? data) && (data <=? 255));;
  let self := {|
    is_htu21d_online := has_bits data 0x80;
    is_bmp280_online := has_bits data 0x40;
    is_gy302_online := has_bits data 0x20;
    is_sht4x_online := has_bits data 0x10;
    is_end_of_battery := has_bits data 0x01;
  |} in
  assert_ (negb (is_htu21d_online self && is_sht4x_online self));;
  Ok self.

Inductive pyval :=
| VStatus (s : BLESensorStatus)
| VFloat (x : float).

Section Fields.
#[local] Open Scope float_scope.

Definition supply_voltage (data : list byte) : result float :=
  assert_ (bool_decide (length data = 2%nat));;
  Ok (float_of_int (from_bytes_little data) / 1000.0).

Definition htu21d_temperature (data : list byte) : result float :=
  assert_ (bool_decide (length data = 2%nat));;
  Ok (float_of_int (from_bytes_little data) * 175.72 / 65536.0 - 46.85).

Definition htu21d_humidity (data : list byte) : result float :=
  assert_ (bool_decide (length data = 2%nat));;
  let ans := float_of_int (from_bytes_little data) * 125.0 / 65536.0 - 6.0 in
  let ans := if 100 <? ans then 100.0 else ans in
  let ans := if ans <? 0 then 0.0 else ans in
  Ok ans.

Definition sht4x_temperature (data : list byte) : result float :=
  assert_ (bool_decide (length data = 2%nat));;
  Ok (float_of_int (from_bytes_little data) * 175.0 / 65535.0 - 45.0).

Definition sht4x_humidity (data : list byte) : result float :=
  assert_ (bool_decide (length data = 2%nat));;
  let ans := float_of_int (from_bytes_little data) * 125.0 / 65535.0 - 6.0 in
  let ans := if 100 <? ans then 100.0 else ans in
  let ans := if ans <? 0 then 0.0 else ans in
  Ok ans.

Definition bmp280_pressure (data : list byte) : result float :=
  assert_ (bool_decide (length data = 4%nat));;
  Ok (float_of_int (from_bytes_little data) / 25600.0).

Definition bmp280_temperature (data : list byte) : result float :=
  assert_ (bool_decide (length data = 2%nat));;
  Ok (float_of_int (from_bytes_little_signed data) / 100.0).

Definition gy302_light (data : list byte) : result float :=
  assert_ (bool_decide (length data = 2%nat));;
  Ok (float_of_int (from_bytes_little data) / 1.2).
End Fields.

(** [parse_data(raw_data, mask)].  The dictionary [ans] is threaded
    through the three conditional blocks in source order. *)
Definition parse_data (raw_data : list byte) (mask : Z) : result (gmap string pyval) :=
  assert_ (bool_decide (length raw_data = 17%nat));;
  let ans : gmap string pyval := ∅ in
  b1 ← getitem raw_data 1;
  ble_sensor_status ← parse (Z.land b1 mask);
  let ans := <["status" := VStatus ble_sensor_status]> ans in
  v ← supply_voltage (slice 2 4 raw_data);
  let ans := <["supply_voltage" := VFloat v]> ans in
  ans ←
    (if is_sht4x_online ble_sensor_status then
       t ← sht4x_temperature (slice 4 6 raw_data);
       let ans := <["temperature" := VFloat t]> ans in
       h ← sht4x_humidity (slice 6 8 raw_data);
       Ok (<["humidity" := VFloat h]> ans)
     else if is_htu21d_online ble_sensor_status then
       t ← htu21d_temperature (slice 4 6 raw_data);
       let ans := <["temperature" := VFloat t]> ans in
       h ← htu21d_humidity (slice 6 8 raw_data);
       Ok (<["humidity" := VFloat h]> ans)
     else Ok ans);
  ans ←
    (if is_bmp280_online ble_sensor_status then
       p ← bmp280_pressure (slice 8 12 raw_data);
       let ans := <["pressure" := VFloat p]> ans in
       t ← bmp280_temperature (slice 12 14 raw_data);
       Ok (<["temperature_aux" := VFloat t]> ans)
     else Ok ans);
  ans ←
    (if is_gy302_online ble_sensor_status then
       l ← gy302_light (slice 14 16 raw_data);
       Ok (<["light" := VFloat l]> ans)
     else Ok ans);
  Ok ans.

(** *** The supervisor [blitz_access]

    What the task does between two suspension points is a function of the
    transport's answers; the effects are recorded as [event]s.  The [lock]
    only orders the tasks among themselves and is left out: it does not
    change what one task does. *)

Inductive log_msg :=
| MsgJobStarted            (* "Job started for {address} with mask {mask}" *)
| MsgWillConnect           (* "Will connect to {address}" *)
| MsgScanning              (* "Scanning..." *)
| MsgFound                 (* "Found {device.name}, connecting..." *)
| MsgConnected             (* "Connected" *)
| MsgFailedReading (e : exn)   (* "Failed reading data, retrying in 3 seconds. ..." *)
| MsgInvalidData (raw_data : list byte)  (* "Invalid data: {raw_data}" *)
| MsgDeviceNotReady        (* "Device is not ready, retrying in 30 seconds" *)
| MsgSuccessfullyGotData   (* "Successfully got data" *)
| MsgNoSensorOnline        (* "WARNING: No sensor online!" *)
| MsgLowBattery            (* "WARNING: Low battery!" *)
| MsgDisconnected          (* "Disconnected, retrying in 3 seconds" *)
| MsgNotFound              (* "{address} not found, retrying in 60 seconds" *)
| MsgNoAdapters            (* "No available BT adapters, retrying in 60 seconds" *)
| MsgDeviceBusy            (* "Device busy, retrying in 20 seconds" *)
| MsgFailedConnecting (e : exn)  (* "Failed connecting, retrying in 3 seconds. ..." *)
| MsgTooManyTimeouts.      (* "Too many timeouts, wait 60 seconds" *)

Inductive event :=
| Log (m : log_msg)                         (* named_print(...) *)
| Sleep (seconds : float)                   (* await asyncio.sleep(seconds) *)
| WatchDogOn                                (* watch_dog.on() *)
| WatchDogOff                               (* watch_dog.off() *)
| DebugPrint (data : gmap string pyval)     (* debug_print(name, data) *)
| InfluxPrint (data : gmap string pyval).   (* influx_print(name, data): the reading leaves the core *)

(** The answer of [client.read_gatt_char(gatt_report)]. *)
Inductive read_outcome :=
| ReadRaises (e : exn)
| ReadReturns (raw_data : list byte).

(** What one pass through the read loop observes: [client.is_connected],
    [time.time()] before the read, the read itself, the exception
    [influx_print(name, data)] raised if it did not return (its helpers
    [normalize_pressure] and [dew_point] and its [print] calls can raise),
    and [time.time()] when [sleep_time] is computed.  [debug_print] only
    formats fields [parse_data] has set and writes one line to stderr; it
    is taken to return. *)
Record read_input := {
  is_connected : bool;
  start_time : float;
  read_gatt_char : read_outcome;
  influx_print_raises : option exn;
  end_time : float;
}.

(** What one pass through the outer loop observes from the transport. *)
Inductive session_input :=
| FindRaises (e : exn)                 (* find_device_by_address raised *)
| FindNone                             (* find_device_by_address returned None *)
| EnterRaises (e : exn)                (* entering the BleakClient context raised *)
| Connected (reads : list read_input). (* connected; then these reads *)

(** The local variables that survive an iteration. *)
Record locals := { timeout_count : Z; worked : bool }.

Definition set_worked (b : bool) (st : locals) : locals :=
  {| timeout_count := timeout_count st; worked := b |}.

(** How one pass through the read loop ends. *)
Inductive control :=
| Continue (st : locals)   (* next pass *)
| Break (st : locals)      (* [break]: leave the read loop *)
| Propagate (e : exn).     (* an exception leaves the read loop *)

(** How the read loop ends, if it does. *)
Inductive loop_exit :=
| LoopBroken (st : locals)
| LoopRaised (e : exn) (timeout_count : Z)  (* [timeout_count] when [e] was raised *)
| LoopPending (st : locals).  (* waiting for the transport *)

(** How a pass through the outer loop ends. *)
Inductive session_exit :=
| Next (timeout_count : Z)    (* the outer loop starts over *)
| Escaped (e : exn)           (* an exception [except Exception] does not catch *)
| InReadLoop (st : locals).   (* still connected, waiting for the transport *)

(** [data["status"]] *)
Definition status_of (data : gmap string pyval) : option BLESensorStatus :=
  match data !! "status" with
  | Some (VStatus s) => Some s
  | _ => None
  end.

(** [len(raw_data) != 17 or raw_data[0] != 0x12 or raw_data[16] != 0x23];
    the indexing is only reached when the length is 17. *)
Definition bad_frame (raw_data : list byte) : bool :=
  negb (bool_decide (length raw_data = 17%nat))
  || negb (bool_decide (raw_data !! 0%nat = Some x12))
  || negb (bool_decide (raw_data !! 16%nat = Some x23)).

Section Supervisor.
(** [args.debug], [args.min_interval] and the task's parameters. *)
Context (debug : bool) (min_interval : Z) (address : string) (mask : Z).

#[local] Open Scope float_scope.

(** The part of the read loop after a successful [parse_data].  The event
    [InfluxPrint data] is the call [influx_print(name, data)]; when the call
    raises, [timeout_count = 0] and the pause that follow it are skipped. *)
Definition report (st : locals) (i : read_input) (data : gmap string pyval)
    : list event * control :=
  match status_of data with
  | None => ([], Propagate (Exn ExceptionOther "'status'"))
  | Some status =>
      let ev_worked := if negb (worked st) then [Log MsgSuccessfullyGotData] else [] in
      let ev_none :=
        if negb (is_sht4x_online status) && negb (is_htu21d_online status)
           && negb (is_bmp280_online status) && negb (is_gy302_online status)
        then [Log MsgNoSensorOnline] else [] in
      let ev_batt := if is_end_of_battery status then [Log MsgLowBattery] else [] in
      let ev_debug := if debug then [DebugPrint data] else [] in
      match influx_print_raises i with
      | Some e =>
          (ev_worked ++ ev_none ++ ev_batt ++ ev_debug ++ [InfluxPrint data], Propagate e)
      | None =>
          let sleep_time := float_of_int min_interval - (end_time i - start_time i) in
          let ev_sleep := if 0 <? sleep_time then [Sleep sleep_time] else [] in
          (ev_worked ++ ev_none ++ ev_batt ++ ev_debug ++ [InfluxPrint data] ++ ev_sleep,
           Continue {| timeout_count := 0; worked := true |})
      end
  end.

(** One pass through the inner [while True]. *)
Definition read_iteration (st : locals) (i : read_input) : list event * control :=
  if negb (is_connected i) then ([], Break st)
  else
    match read_gatt_char i with
    | ReadRaises e =>
        if negb (is_Exception e) then ([], Propagate e)
        else if str_in "Not connected" (exn_str e) then ([], Break st)
        else ([Log (MsgFailedReading e); Sleep 3], Continue (set_worked false st))
    | ReadReturns raw_data =>
        if bad_frame raw_data then
          ([Log (MsgInvalidData raw_data)]
             ++ (if bool_decide (raw_data = replicate 17 x00)
                 then [Log MsgDeviceNotReady; Sleep 30] else []),
           Continue (set_worked false st))
        else
          match parse_data raw_data mask with
          | Raise e => ([], Propagate e)
          | Ok data => report st i data
          end
    end.

(** The inner [while True] over the transport's answers.  Nothing in it
    but [report] assigns [timeout_count], so an exception leaves the loop
    with the count the pass began with. *)
Fixpoint read_loop (st : locals) (reads : list read_input) : list event * loop_exit :=
  match reads with
  | [] => ([], LoopPending st)
  | i :: rest =>
      let '(evs, c) := read_iteration st i in
      match c with
      | Continue st' => let '(evs', x) := read_loop st' rest in (evs ++ evs', x)
      | Break st' => (evs, LoopBroken st')
      | Propagate e => (evs, LoopRaised e (timeout_count st))
      end
  end.

(** The [except Exception as e] clause of the outer loop. *)
Definition handler (timeout_count : Z) (e : exn) : list event * Z :=
  let '(evs, timeout_count) :=
    if isinstance e BleakDeviceNotFoundError then
      ([Log MsgNotFound; Sleep 60], timeout_count)
    else if str_in "No powered Bluetooth adapters found" (exn_str e) then
      ([Log MsgNoAdapters; Sleep 60], timeout_count)
    else if str_in "[org.bluez.Error.InProgress]" (exn_str e) then
      ([Log MsgDeviceBusy; Sleep 20], timeout_count)
    else
      let '(evs, timeout_count) :=
        if isinstance e TimeoutError then
          let timeout_count := (timeout_count + 1)%Z in
          if (10 <? timeout_count)%Z
          then ([Log MsgTooManyTimeouts; Sleep 60], timeout_count)
          else ([], timeout_count)
        else ([], timeout_count) in
      ([Log (MsgFailedConnecting e)] ++ evs ++ [Sleep 3], timeout_count) in
  (WatchDogOff :: evs, timeout_count).

(** An exception raised inside the [try]. *)
Definition raised (evs : list event) (timeout_count : Z) (e : exn)
    : list event * session_exit :=
  if is_Exception e then
    let '(evs', timeout_count) := handler timeout_count e in
    (evs ++ evs', Next timeout_count)
  else (evs, Escaped e).

(** One pass through the outer [while True]. *)
Definition session (timeout_count : Z) (s : session_input) : list event * session_exit :=
  let st := {| timeout_count := timeout_count; worked := false |} in
  let scanning := [Log MsgWillConnect; Log MsgScanning; WatchDogOn] in
  let connecting := scanning ++ [WatchDogOff; Log MsgFound; WatchDogOn] in
  match s with
  | FindRaises e => raised scanning timeout_count e
  | FindNone =>
      raised (scanning ++ [WatchDogOff]) timeout_count
        (Exn BleakDeviceNotFoundError ("Device " +:+ address +:+ " not found"))
  | EnterRaises e => raised connecting timeout_count e
  | Connected reads =>
      let '(evs, x) := read_loop st reads in
      let evs := connecting ++ [WatchDogOff; Log MsgConnected] ++ evs in
      match x with
      | LoopBroken st' =>
          (evs ++ [Log MsgDisconnected; Sleep 3], Next (Blitz.timeout_count st'))
      | LoopRaised e timeout_count' => raised evs timeout_count' e
      | LoopPending st' => (evs, InReadLoop st')
      end
  end.

(** The outer [while True]. *)
Fixpoint supervise (timeout_count : Z) (sessions : list session_input)
    : list event * session_exit :=
  match sessions with
  | [] => ([], Next timeout_count)
  | s :: rest =>
      let '(evs, x) := session timeout_count s in
      match x with
      | Next timeout_count' =>
          let '(evs', y) := supervise timeout_count' rest in (evs ++ evs', y)
      | _ => (evs, x)
      end
  end.

(** [blitz_access(name, address, lock, latency, mask)] *)
Definition blitz_access (latency : float) (sessions : list session_input)
    : list event * session_exit :=
  let '(evs, x) := supervise 0 sessions in
  (Sleep latency :: Log MsgJobStarted :: evs, x).

End Supervisor.

(** The readings a trace hands to the sink, and the pauses it makes. *)
Definition readings (evs : list event) : list (gmap string pyval) :=
  omap (λ ev, match ev with InfluxPrint data => Some data | _ => None end) evs.

Definition sleeps (evs : list event) : list float :=
  omap (λ ev, match ev with Sleep d => Some d | _ => None end) evs.

(** [timeout_count] when the read loop is left. *)
Definition count_at_exit (x : loop_exit) : Z :=
  match x with
  | LoopBroken st | LoopPending st => timeout_count st
  | LoopRaised _ timeout_count => timeout_count
  end.

(** The events of a pass of the outer loop up to the read loop. *)
Definition connected_prefix : list event :=
  [Log MsgWillConnect; Log MsgScanning; WatchDogOn; WatchDogOff;
   Log MsgFound; WatchDogOn; WatchDogOff; Log MsgConnected].



(** The value a decoder returned, if it returned. *)
Definition returned {A} (r : result A) : option A :=
  match r with
  | Ok a => Some a
  | Raise _ => None
  end.

(** Every byte value, and the check of both humidity decoders on a raw
    16-bit field. *)
Definition all_bytes : list byte :=
  omap (λ n, Byte.of_N (N.of_nat n)) (seq 0 256).

Definition in_0_100 (r : result float) : bool :=
  match r with
  | Ok h => ((0 <=? h) && (h <=? 100))%float
  | Raise _ => false
  end.

Definition humidity_check (b0 b1 : byte) : bool :=
  in_0_100 (htu21d_humidity [b0; b1]) && in_0_100 (sht4x_humidity [b0; b1]).

(** Sample frames: marker, status byte, 1.000 V, mid-scale temperature and
    humidity, 64 hPa, -10.00 C, 100 lux, trailer. *)
Definition sample_frame (status : byte) : list byte :=
  [x12; status; xe8; x03; x00; x80; x00; x80;
   x00; x00; x19; x00; x18; xfc; x78; x00; x23].

Definition sample_read (raw_data : list byte) : read_input :=
  {| is_connected := true; start_time := 0%float;
     read_gatt_char := ReadReturns raw_data; influx_print_raises := None;
     end_time := 1%float |}.

End Blitz.

(** ** electricity_meter.py: the meter decoder and its two read paths *)

Module Meter.

Inductive pyval :=
| VFloat (x : float)
| VInt (n : Z).

(** [parse_data(raw_data)] *)
Definition parse_data (raw_data : list byte) : gmap string pyval :=
  let voltage := (float_of_int (from_bytes_big (slice 5 7 raw_data)) / 10.0)%float in
  let current := (float_of_int (from_bytes_big (slice 8 10 raw_data)) / 1000.0)%float in
  let power := (float_of_int (from_bytes_big (slice 11 13 raw_data)) / 10.0)%float in
  let kwh := (float_of_int (from_bytes_big (slice 15 17 raw_data)) / 100.0)%float in
  let price := (float_of_int (from_bytes_big (slice 19 20 raw_data)) / 100.0)%float in
  let freq := (float_of_int (from_bytes_big (slice 20 22 raw_data)) / 10.0)%float in
  let coef := (float_of_int (from_bytes_big (slice 22 24 raw_data)) / 1000.0)%float in
  let temperature := from_bytes_big (slice 25 26 raw_data) in
  let h := from_bytes_big (slice 26 28 raw_data) in
  let m := from_bytes_big (slice 28 29 raw_data) in
  let s := from_bytes_big (slice 29 30 raw_data) in
  <["voltage" := VFloat voltage]> (
  <["current" := VFloat current]> (
  <["power" := VFloat power]> (
  <["kwh" := VFloat kwh]> (
  <["price" := VFloat price]> (
  <["freq" := VFloat freq]> (
  <["coef" := VFloat coef]> (
  <["temperature" := VInt temperature]> (
  <["h" := VInt h]> (
  <["m" := VInt m]> (
  <["s" := VInt s]> ∅)))))))))).

Inductive log_msg :=
| MsgInvalidRetry (len : nat) (reconnect_count reconnect_threshold : Z)
    (* "invalid data (len={len}), retry {reconnect_count}/{reconnect_threshold}" *)
| MsgSuccessfullyGotData   (* "successfully got data" *)
| MsgInvalidData (data : list byte)   (* "Invalid data {data} (len={len(data)}))" *)
| MsgFailedToConnect (e : exn).       (* "failed to connect: {str(e)}. retry ..." *)

Inductive event :=
| Log (m : log_msg)                        (* eprint(...) *)
| Sleep (seconds : float)                  (* time.sleep(seconds) *)
| SerialOpen                               (* serial.Serial(path, 9600, timeout=1) returned *)
| WatchDogTouch                            (* watch_dog.touch() *)
| DebugPrint (data : gmap string pyval)    (* debug_print(data) *)
| InfluxPrint (data : gmap string pyval).  (* influx_print(data): the reading leaves the core *)

(** [b"\xff\x55\x01\x01"] *)
Definition header : list byte := [xff; x55; x01; x01].

Definition reconnect_threshold : Z := 20.

(** The locals of [run_spp]. *)
Record spp_locals := {
  print_count : Z;
  reconnect_count : Z;
  worked : bool;
}.

Inductive control :=
| Continue (st : spp_locals)
| Raises (e : exn).

Inductive spp_exit :=
| SppRaised (e : exn)
| SppPending (st : spp_locals).   (* blocked in [ser.read] *)

(** [len(raw_data) < 32 or raw_data[0:4] != b"\xff\x55\x01\x01"] *)
Definition spp_invalid (raw_data : list byte) : bool :=
  (length raw_data <? 32)%nat || negb (bool_decide (slice 0 4 raw_data = header)).

(** [len(data) == 36 and data[0:4] == b"\xff\x55\x01\x01"] *)
Definition ble_valid (data : list byte) : bool :=
  bool_decide (length data = 36%nat) && bool_decide (slice 0 4 data = header).

Section Paths.
(** [args.debug] and [args.interval] *)
Context (debug : bool) (interval : Z).

(** The tail shared by [run_spp] and [notify_cb]: announce, print every
    [interval]-th reading, count.  Returns the events and the new
    [print_count]. *)
Definition emit (print_count : Z) (worked : bool) (data : gmap string pyval)
    : list event * Z :=
  let ev_worked := if negb worked then [Log MsgSuccessfullyGotData] else [] in
  let ev_debug := if debug then [DebugPrint data] else [] in
  let '(ev_print, print_count) :=
    if print_count `mod` interval =? 0 then ([InfluxPrint data], 0) else ([], print_count) in
  (ev_worked ++ ev_debug ++ ev_print, print_count + 1).

(** The body of the [while True] of [run_spp], after [raw_data] was read. *)
Definition spp_iteration (st : spp_locals) (raw_data : list byte) : list event * control :=
  if spp_invalid raw_data then
    if reconnect_threshold <? reconnect_count st then
      ([], Raises (Exn SerialException "too many errors"))
    else
      ([Log (MsgInvalidRetry (length raw_data) (reconnect_count st) reconnect_threshold)],
       Continue {| print_count := print_count st;
                   reconnect_count := reconnect_count st + 1;
                   worked := false |})
  else
    let data := parse_data raw_data in
    let '(evs, print_count) := emit (print_count st) (worked st) data in
    (evs, Continue {| print_count := print_count; reconnect_count := 0; worked := true |}).

(** [raw_data = ser.read(36)], read again once when nothing came: the
    [raw_data] of each iteration, from the answers of [ser.read]. *)
Fixpoint fetch (reads : list (list byte)) : list (list byte) :=
  match reads with
  | [] => []
  | r :: rest =>
      match r with
      | _ :: _ => r :: fetch rest
      | [] =>
          match rest with
          | [] => []
          | r' :: rest' => r' :: fetch rest'
          end
      end
  end.

Fixpoint spp_loop (st : spp_locals) (frames : list (list byte)) : list event * spp_exit :=
  match frames with
  | [] => ([], SppPending st)
  | raw_data :: rest =>
      let '(evs, c) := spp_iteration st raw_data in
      match c with
      | Continue st' => let '(evs', x) := spp_loop st' rest in (evs ++ evs', x)
      | Raises e => (evs, SppRaised e)
      end
  end.

(** What one call [run_spp(path)] meets in the serial driver: either
    [serial.Serial(path, 9600, timeout=1)] raises, or the port opens and
    [ser.read(36)] returns [reads], one after the other; [failure] is the
    exception the [ser.read] after them raises, if it raises (a raise ends
    the call, so no answer after it matters). *)
Inductive port_input :=
| OpenRaises (e : exn)
| Opened (reads : list (list byte)) (failure : option exn).

(** [run_spp(path)].  Neither [serial.Serial] nor [ser.read] is inside a
    [try]: what they raise leaves [run_spp] as it is. *)
Definition run_spp (port : port_input) : list event * spp_exit :=
  match port with
  | OpenRaises e => ([], SppRaised e)
  | Opened reads failure =>
      let '(evs, x) :=
        spp_loop {| print_count := 0; reconnect_count := 0; worked := false |}
          (fetch reads) in
      (SerialOpen :: evs,
       match x, failure with
       | SppPending _, Some e => SppRaised e
       | _, _ => x
       end)
  end.

Inductive main_exit :=
| MainRetrying                  (* about to call [run_spp] again *)
| MainReading (st : spp_locals) (* inside [run_spp], blocked in [ser.read] *)
| MainRaised (e : exn).         (* an exception other than SerialException *)

(** [except serial.SerialException as e] around [run_spp]. *)
Definition main_except (e : exn) : option (list event) :=
  if isinstance e SerialException
  then Some [Log (MsgFailedToConnect e); Sleep 10]
  else None.

(** The [elif args.dev:] branch of [main]. *)
Fixpoint main_spp (ports : list port_input) : list event * main_exit :=
  match ports with
  | [] => ([], MainRetrying)
  | p :: rest =>
      let '(evs, x) := run_spp p in
      match x with
      | SppPending st => (evs, MainReading st)
      | SppRaised e =>
          match main_except e with
          | Some evs' => let '(evs'', y) := main_spp rest in (evs ++ evs' ++ evs'', y)
          | None => (evs, MainRaised e)
          end
      end
  end.

(** The locals [notify_cb] shares with [run_ble]. *)
Record ble_locals := { ble_print_count : Z; ble_worked : bool }.

(** [notify_cb(sender, data)] *)
Definition notify_cb (st : ble_locals) (data : list byte) : list event * ble_locals :=
  if ble_valid data then
    let data := parse_data data in
    let '(evs, print_count) := emit (ble_print_count st) (ble_worked st) data in
    (WatchDogTouch :: evs, {| ble_print_count := print_count; ble_worked := true |})
  else
    ([WatchDogTouch; Log (MsgInvalidData data)],
     {| ble_print_count := ble_print_count st; ble_worked := false |}).

End Paths.

(** The readings a trace hands to the sink. *)
Definition readings (evs : list event) : list (gmap string pyval) :=
  omap (λ ev, match ev with InfluxPrint data => Some data | _ => None end) evs.

(** The value of byte [i] of a frame that has one. *)
Definition u8 (raw_data : list byte) (i : nat) : Z :=
  match raw_data !! i with
  | Some b => byte_val b
  | None => 0
  end.

(** The big-endian 16-bit value at bytes [i] and [i + 1]. *)
Definition be16 (raw_data : list byte) (i : nat) : Z :=
  256 * u8 raw_data i + u8 raw_data (i + 1).

(** The lines [run_spp] logs for consecutive invalid frames, the first of
    them at count [k]. *)
Definition retry_logs (k : Z) (frames : list (list byte)) : list event :=
  imap (λ j raw_data,
          Log (MsgInvalidRetry (length raw_data) (k + Z.of_nat j) reconnect_threshold))
       frames.

(** What [run_spp] raises when it gives up. *)
Definition too_many_errors : exn := Exn SerialException "too many errors".

(** A sample frame: 230.5 V, 1.234 A, 284.4 W, 12.34 kWh, price 0.60,
    50.0 Hz, factor 0.987, 25 C, 13:37:42. *)
Definition sample_frame : list byte :=
  [xff; x55; x01; x01; x00; x09; x01; x00; x04; xd2; x00; x0b; x1c; x00; x00; x04;
   xd2; x00; x00; x3c; x01; xf4; x03; xdb; x00; x19; x00; x0d; x25; x2a; x00; x00;
   x00; x00; x00; x00].

End Meter.

(** ** third_party/__init__.py: the watchdog *)

Module ThirdParty.

#[local] Open Scope float_scope.

(** [class WatchDog]; [eprint] is the [Report] event below.  Both programs
    construct it with the integer 120, kept here as the float 120.0 that
    the loop's arithmetic converts it to. *)
Record WatchDog := {
  timeout : float;
  ts : float;
  enable : bool;
}.

(** [touch(self)], at clock reading [now] *)
Definition touch (now : float) (self : WatchDog) : WatchDog :=
  {| timeout := timeout self; ts := now; enable := enable self |}.

(** [on(self)] *)
Definition on (now : float) (self : WatchDog) : WatchDog :=
  let self := touch now self in
  {| timeout := timeout self; ts := ts self; enable := true |}.

(** [off(self)] *)
Definition off (self : WatchDog) : WatchDog :=
  {| timeout := timeout self; ts := ts self; enable := false |}.

Inductive event :=
| Sleep (seconds : float)        (* await asyncio.sleep(seconds) *)
| Report (time_expire : float).  (* self.eprint("Watch dog timed out for {time_expire}s") *)

(** How a pass through a [while True] body can end. *)
Inductive control :=
| Continue             (* [continue], or the end of the body *)
| Break                (* [break] or [return]: the loop returns normally *)
| Exit (code : Z).     (* [exit(code)] *)

(** The body of the [while True] of [loop(self)], with [time.time()]
    reading [now]. *)
Definition loop_body (self : WatchDog) (now : float) : list event * control :=
  if negb (enable self) then ([Sleep (timeout self / 2)], Continue)
  else
    let time_expire := now - ts self in
    if timeout self <=? time_expire then ([Report time_expire], Exit (-1))
    else ([Sleep (timeout self - time_expire)], Continue).

Inductive loop_status :=
| Looping            (* suspended in a sleep, or about to recheck *)
| Returned           (* the coroutine returned *)
| Exited (code : Z). (* the process was terminated *)

(** [loop(self)].  The other tasks run while the loop sleeps, so each pass
    sees the watchdog as they left it: [observations] lists, pass by pass,
    the object and the clock. *)
Fixpoint loop (observations : list (WatchDog * float)) : list event * loop_status :=
  match observations with
  | [] => ([], Looping)
  | (self, now) :: rest =>
      let '(evs, c) := loop_body self now in
      match c with
      | Continue => let '(evs', x) := loop rest in (evs ++ evs', x)
      | Break => (evs, Returned)
      | Exit code => (evs, Exited code)
      end
  end.

(** The fatal reports in a trace. *)
Definition reports (evs : list event) : list float :=
  omap (λ ev, match ev with Report t => Some t | Sleep _ => None end) evs.

(** A pass that finds the watchdog armed and not touched for at least
    [timeout]. *)
Definition expired (obs : WatchDog * float) : bool :=
  enable obs.1 && (timeout obs.1 <=? obs.2 - ts obs.1).

(** [WatchDog(120, eprint)], created at clock reading [now]. *)
Definition new (now : float) : WatchDog :=
  {| timeout := 120; ts := now; enable := false |}.

End ThirdParty.

(** ** blitz_client.py: what a run of the supervisor does to the watchdog *)

Module BlitzTrace.
Import Blitz.

(** Whether this task left the watchdog armed, replaying its [on()] and
    [off()] calls from the state [armed]. *)
Fixpoint armed_after (armed : bool) (evs : list event) : bool :=
  match evs with
  | [] => armed
  | WatchDogOn :: rest => armed_after true rest
  | WatchDogOff :: rest => armed_after false rest
  | _ :: rest => armed_after armed rest
  end.

(** No sleep and no output happens while this task has the watchdog
    armed. *)
Fixpoint calm_while_armed (armed : bool) (evs : list event) : bool :=
  match evs with
  | [] => true
  | WatchDogOn :: rest => calm_while_armed true rest
  | WatchDogOff :: rest => calm_while_armed false rest
  | Log _ :: rest => calm_while_armed armed rest
  | (Sleep _ | DebugPrint _ | InfluxPrint _) :: rest =>
      negb armed && calm_while_armed armed rest
  end.

(** The pauses the supervisor makes between two attempts. *)
Definition backoff_pause (d : float) : Prop :=
  d = 3%float ∨ d = 20%float ∨ d = 60%float.

(** A dictionary the read loop got from [parse_data] on a well-framed
    payload. *)
Definition decoded (mask : Z) (data : gmap string pyval) : Prop :=
  ∃ raw_data, bad_frame raw_data = false ∧ parse_data raw_data mask = Ok data.

End BlitzTrace.

(** ** blitz_client.py: the two printers *)

Module BlitzOut.
Import Blitz.

(** [KeyError(k)]; its [str] is the quoted key. *)
Definition key_error (k : string) : exn := Exn ExceptionOther ("'" +:+ k +:+ "'").

(** [data[k]] on a dictionary. *)
Definition item (data : gmap string pyval) (k : string) : result pyval :=
  match data !! k with
  | Some v => Ok v
  | None => Raise (key_error k)
  end.

(** [data["status"]], read for one of its [is_..._online] attributes. *)
Definition status (data : gmap string pyval) : result BLESensorStatus :=
  v ← item data "status";
  match v with
  | VStatus s => Ok s
  | VFloat _ => Raise (Exn ExceptionOther "'float' object has no attribute")
  end.

(** A value used as a number. *)
Definition number (v : pyval) : result float :=
  match v with
  | VFloat x => Ok x
  | VStatus _ => Raise (Exn ExceptionOther "unsupported operand type(s)")
  end.

(** A segment of the debug line: its label and the values it shows. *)
Definition segment : Type := string * list pyval.

(** [debug_print(sensor, data)]: the segments of the line it prints, or
    the exception raised while the line is built. *)
Definition debug_print (data : gmap string pyval) : result (list segment) :=
  st ← item data "status";
  v ← item data "supply_voltage";
  let ans := [("status", [st]); ("Supply voltage", [v])] in
  s ← status data;
  ans ←
    (if is_sht4x_online s then
       t ← item data "temperature";
       h ← item data "humidity";
       Ok (ans ++ [("SHT4X", [t; h])])
     else if is_htu21d_online s then
       t ← item data "temperature";
       h ← item data "humidity";
       Ok (ans ++ [("HTU21D", [t; h])])
     else Ok ans);
  ans ←
    (if is_bmp280_online s then
       p ← item data "pressure";
       t ← item data "temperature_aux";
       Ok (ans ++ [("BMP280", [p; t])])
     else Ok ans);
  ans ←
    (if is_gy302_online s then
       l ← item data "light";
       Ok (ans ++ [("GY302", [l])])
     else Ok ans);
  Ok ans.

(** A line of the line protocol: its fields, by name.  The measurement
    and the timestamp are the same on every line of one call. *)
Definition line : Type := list (string * pyval).

(** Printing and raising: the lines printed so far and how the
    computation went on. *)
Definition out (A : Type) : Type := list line * result A.

Definition out_ret {A} (a : A) : out A := ([], Ok a).

Definition out_bind {A B} (m : out A) (k : A → out B) : out B :=
  match m.2 with
  | Ok a => (m.1 ++ (k a).1, (k a).2)
  | Raise e => (m.1, Raise e)
  end.

(** [print(...)] of one line. *)
Definition print (l : line) : out unit := ([l], Ok tt).

(** A computation that prints nothing. *)
Definition quiet {A} (r : result A) : out A := ([], r).

(** [if args.altitude:] on a float or [None]. *)
Definition truthy (altitude : option float) : bool :=
  match altitude with
  | Some a => negb (a =? 0)%float
  | None => false
  end.

Section Printer.
(** [args.altitude], and the two helpers imported from [third_party]:
    [normalize_pressure], which needs the float power, and [dew_point],
    which calls a module that is not among the sources.  Both are taken
    as they are called, returning a float or raising. *)
Context (altitude : option float).
Context (normalize_pressure : float → float → result float).
Context (dew_point : float → float → float → result float).

(** [influx_print(sensor, data)] *)
Definition influx_print (data : gmap string pyval) : out unit :=
  out_bind (quiet (item data "supply_voltage")) (λ v,
  out_bind (print [("supply_voltage", v)]) (λ _,
  out_bind (quiet (status data)) (λ s,
  out_bind
    (if is_htu21d_online s || is_sht4x_online s then
       out_bind (quiet (item data "temperature")) (λ t,
       out_bind (quiet (item data "humidity")) (λ h,
       print [("temperature", t); ("humidity", h)]))
     else out_ret tt) (λ _,
  out_bind
    (if is_bmp280_online s then
       out_bind (quiet (item data "pressure")) (λ p,
       out_bind (print [("pressure", p)]) (λ _,
       out_bind
         (if truthy altitude then
            out_bind (quiet (item data "pressure")) (λ p,
            out_bind (quiet (number p)) (λ p,
            out_bind (quiet (normalize_pressure p (default 0%float altitude))) (λ n,
            print [("pressure_normalized", VFloat n)])))
          else out_ret tt) (λ _,
       let temp_tag :=
         if is_htu21d_online s || is_sht4x_online s
         then "temperature_aux" else "temperature" in
       out_bind (quiet (item data "temperature_aux")) (λ t,
       print [(temp_tag, t)]))))
     else out_ret tt) (λ _,
  out_bind
    (if bool_decide (is_Some (data !! "temperature"))
        && bool_decide (is_Some (data !! "pressure"))
        && bool_decide (is_Some (data !! "humidity"))
     then
       out_bind (quiet (item data "temperature")) (λ t,
       out_bind (quiet (number t)) (λ t,
       out_bind (quiet (item data "pressure")) (λ p,
       out_bind (quiet (number p)) (λ p,
       out_bind (quiet (item data "humidity")) (λ h,
       out_bind (quiet (number h)) (λ h,
       out_bind (quiet (dew_point t p h)) (λ d,
       print [("dew_point", VFloat d)])))))))
     else out_ret tt) (λ _,
  if is_gy302_online s then
    out_bind (quiet (item data "light")) (λ l,
    print [("light", l)])
  else out_ret tt)))))).

End Printer.

(** The field names of the printed lines, in order. *)
Definition field_names (lines : list line) : list string :=
  concat (map (map fst) lines).

(** The seven entries of a decoded dictionary, with the status bits as
    booleans. *)
Record entries (ans : gmap string pyval) (s : BLESensorStatus) : Prop := {
  e_excl : is_htu21d_online s && is_sht4x_online s = false;
  e_status : ans !! "status" = Some (VStatus s);
  e_voltage : ∃ v, ans !! "supply_voltage" = Some (VFloat v);
  e_temperature :
    if is_sht4x_online s || is_htu21d_online s
    then ∃ v, ans !! "temperature" = Some (VFloat v)
    else ans !! "temperature" = None;
  e_humidity :
    if is_sht4x_online s || is_htu21d_online s
    then ∃ v, ans !! "humidity" = Some (VFloat v)
    else ans !! "humidity" = None;
  e_pressure :
    if is_bmp280_online s
    then ∃ v, ans !! "pressure" = Some (VFloat v)
    else ans !! "pressure" = None;
  e_aux :
    if is_bmp280_online s
    then ∃ v, ans !! "temperature_aux" = Some (VFloat v)
    else ans !! "temperature_aux" = None;
  e_light :
    if is_gy302_online s
    then ∃ v, ans !! "light" = Some (VFloat v)
    else ans !! "light" = None;
}.

End BlitzOut.

(** ** electricity_meter.py: the printers and the callback over a session *)

Module MeterOut.
Import Meter.

(** [KeyError(k)] *)
Definition key_error (k : string) : exn := Exn ExceptionOther ("'" +:+ k +:+ "'").

(** [data[k]] *)
Definition item (data : gmap string pyval) (k : string) : result pyval :=
  match data !! k with
  | Some v => Ok v
  | None => Raise (key_error k)
  end.

(** [debug_print(data)]: the values of the line, in the order the
    f-string reads them, each with its unit. *)
Definition debug_print (data : gmap string pyval) : result (list (pyval * string)) :=
  voltage ← item data "voltage";
  current ← item data "current";
  power ← item data "power";
  coef ← item data "coef";
  freq ← item data "freq";
  kwh ← item data "kwh";
  temperature ← item data "temperature";
  h ← item data "h";
  m ← item data "m";
  s ← item data "s";
  price ← item data "price";
  Ok [(voltage, "V"); (current, "A"); (power, "W"); (coef, ""); (freq, "Hz");
      (kwh, "kwh"); (temperature, "c"); (h, ":"); (m, ":"); (s, ""); (price, "")].

(** [influx_print(data)]: the fields of the one line it prints. *)
Definition influx_print (data : gmap string pyval) : result (list (string * pyval)) :=
  voltage ← item data "voltage";
  current ← item data "current";
  power ← item data "power";
  kwh ← item data "kwh";
  freq ← item data "freq";
  coef ← item data "coef";
  temperature ← item data "temperature";
  Ok [("voltage", voltage); ("current", current); ("power", power);
      ("electricity", kwh); ("frequency", freq); ("factor", coef);
      ("temperature", temperature)].

(** The elements of [l] at the positions [p] with
    [(k + p) mod interval = 0]. *)
Fixpoint sampled {A} (interval k : Z) (l : list A) : list A :=
  match l with
  | [] => []
  | x :: rest =>
      if k `mod` interval =? 0
      then x :: sampled interval (k + 1) rest
      else sampled interval (k + 1) rest
  end.

(** [notify_cb] called for each notification of a session, in order. *)
Fixpoint notify_all (debug : bool) (interval : Z) (st : ble_locals)
    (notifications : list (list byte)) : list event * ble_locals :=
  match notifications with
  | [] => ([], st)
  | data :: rest =>
      let '(evs, st') := notify_cb debug interval st data in
      let '(evs', st'') := notify_all debug interval st' rest in
      (evs ++ evs', st'')
  end.

End MeterOut.

(** ** blitz_client.py: the sensor arguments of [main] *)

Module BlitzMain.

(** [str] values are kept as strings of code points below 256. *)

(** The character of a one-character string literal. *)
Definition char (s : string) : Ascii.ascii :=
  match s with
  | String c _ => c
  | EmptyString => Ascii.zero
  end.

(** [s.split(sep)] for a separator of one character. *)
Fixpoint split (sep : Ascii.ascii) (s : string) : list string :=
  match s with
  | EmptyString => [EmptyString]
  | String c rest =>
      if Ascii.eqb c sep then EmptyString :: split sep rest
      else
        match split sep rest with
        | [] => [String c EmptyString]
        | piece :: pieces => String c piece :: pieces
        end
  end.

(** [c.isspace()] *)
Definition is_space (c : Ascii.ascii) : bool :=
  let n := Ascii.nat_of_ascii c in
  ((9 <=? n) && (n <=? 13) || (28 <=? n) && (n <=? 32) || (n =? 133) || (n =? 160))%nat.

Fixpoint lstrip (s : string) : string :=
  match s with
  | EmptyString => EmptyString
  | String c rest => if is_space c then lstrip rest else s
  end.

Fixpoint rstrip (s : string) : string :=
  match s with
  | EmptyString => EmptyString
  | String c rest =>
      match rstrip rest with
      | EmptyString => if is_space c then EmptyString else String c EmptyString
      | rest' => String c rest'
      end
  end.

(** [s.strip()] *)
Definition strip (s : string) : string := rstrip (lstrip s).

(** ["".join(pieces)] *)
Definition join (pieces : list string) : string :=
  fold_right String.append EmptyString pieces.

(** [l[-2:]] *)
Definition last_two {A} (l : list A) : list A := drop (length l - 2) l.

(** How often [c] occurs in [s]. *)
Fixpoint occurrences (c : Ascii.ascii) (s : string) : nat :=
  match s with
  | EmptyString => 0
  | String c' rest => (if Ascii.eqb c' c then 1 else 0) + occurrences c rest
  end.

(** The arguments of one [blitz_access] task. *)
Record task := {
  name : string;
  address : string;
  latency : Z;
  mask : Z;
}.

(** How the sensor loop of [main] ends. *)
Inductive outcome :=
| Runs (tasks : list task)   (* the tasks, and the watchdog loop, are awaited *)
| Exits (code : Z)           (* [exit(code)] *)
| Raises (e : exn).          (* [int(mask, 16)] raised *)

Section Main.
(** Python's [int(_, 16)] on a string. *)
Context (int16 : string → result Z).

(** The body of the [for] loop: the task of sensor [index], or [None] for
    [exit(1)]. *)
Definition sensor_task (index : nat) (sensor : string) : result (option task) :=
  match split (char ",") (strip sensor) with
  | [address] =>
      Ok (Some {| name := join (last_two (split (char ":") address)); address := address;
                  latency := Z.of_nat index * 20; mask := 0xff |})
  | [name; address] =>
      Ok (Some {| name := name; address := address;
                  latency := Z.of_nat index * 20; mask := 0xff |})
  | [name; address; mask] =>
      mask ← int16 mask;
      Ok (Some {| name := name; address := address;
                  latency := Z.of_nat index * 20; mask := mask |})
  | _ => Ok None
  end.

(** The [for] loop from sensor [index] on, with the [tasks] made so far. *)
Fixpoint sensor_loop (index : nat) (tasks : list task) (sensors : list string) : outcome :=
  match sensors with
  | [] => match tasks with [] => Exits 1 | _ => Runs tasks end
  | sensor :: rest =>
      match sensor_task index sensor with
      | Raise e => Raises e
      | Ok None => Exits 1
      | Ok (Some t) => sensor_loop (S index) (tasks ++ [t]) rest
      end
  end.

(** [main()] after the optional scan. *)
Definition main (sensors : list string) : outcome := sensor_loop 0 [] sensors.

(** A sensor argument with at most two commas and, if it has two, a third
    field that [int(_, 16)] converts. *)
Definition acceptable (sensor : string) : Prop :=
  (occurrences (char ",") (strip sensor) ≤ 2)%nat
  ∧ ∀ field, split (char ",") (strip sensor) !! 2%nat = Some field →
             ∃ z, int16 field = Ok z.

End Main.

End BlitzMain.

(** ** blitz_client.py: the ranges of the 16-bit fields *)

Module BlitzRange.
Import Blitz.

(** A decoder returned a value between [lo] and [hi]. *)
Definition within (lo hi : float) (r : result float) : bool :=
  match r with
  | Ok x => ((lo <=? x) && (x <=? hi))%float
  | Raise _ => false
  end.

(** A decoder returned a negative value. *)
Definition negative (r : result float) : bool :=
  match r with
  | Ok x => (x <? 0)%float
  | Raise _ => false
  end.

(** The checks of the 16-bit decoders on one raw field. *)
Definition range_check (b0 b1 : byte) : bool :=
  within 0 65.535 (supply_voltage [b0; b1])
  && within (-46.85) 128.87 (htu21d_temperature [b0; b1])
  && within (-45) 130 (sht4x_temperature [b0; b1])
  && within (-327.68) 327.67 (bmp280_temperature [b0; b1])
  && within 0 54612.5 (gy302_light [b0; b1])
  && bool_decide (negative (bmp280_temperature [b0; b1]) = (128 <=? byte_val b1)).

End BlitzRange.

(** ** electricity_meter.py: the notification path [run_ble] *)

Module MeterBle.
Import Meter.

Inductive log_msg :=
| MsgJobStarted                  (* "Job started on {address}" *)
| MsgConnecting                  (* "Connecting to {address}" *)
| MsgConnected                   (* "Connected" *)
| MsgDisconnected                (* "Disconnected" *)
| MsgNotFound                    (* "{address} not found, retrying in 60 seconds" *)
| MsgDeviceBusy                  (* "Device busy, retrying in 20 seconds" *)
| MsgFailedConnecting (e : exn). (* "Failed connecting, retrying in 10 seconds. ..." *)

Inductive event :=
| Log (m : log_msg)           (* eprint(...) of [run_ble] *)
| Sleep (seconds : float)     (* await asyncio.sleep(seconds) *)
| WatchDogOn                  (* watch_dog.on() *)
| WatchDogTouch               (* watch_dog.touch() of [run_ble] *)
| Callback (ev : Meter.event).  (* an effect of [notify_cb] *)

(** One pass through the inner [while True] of a connection. *)
Inductive round :=
| NotConnected             (* [client.is_connected] was false: [break] *)
| NotifyRaises (e : exn)   (* [client.start_notify] raised *)
| Subscribed (polls : list (list (list byte))).
    (* subscribed; then one 10 s sleep per element, during which its
       notifications arrive, until [client.is_connected] is false *)

(** One pass through the outer [while True]. *)
Inductive session_input :=
| EnterRaises (e : exn)            (* entering the BleakClient context raised *)
| Entered (rounds : list round).   (* connected; then these rounds *)

Inductive loop_exit :=
| LoopBroken (st : ble_locals)
| LoopRaised (e : exn) (st : ble_locals)
| LoopPending (st : ble_locals).

Inductive session_exit :=
| Next (st : ble_locals)        (* the outer loop starts over *)
| Escaped (e : exn)             (* an exception [except Exception] does not catch *)
| InSession (st : ble_locals).  (* still connected *)

Section RunBle.
Context (debug : bool) (interval : Z).

(** The notifications delivered during one sleep. *)
Fixpoint deliver (st : ble_locals) (notifications : list (list byte))
    : list event * ble_locals :=
  match notifications with
  | [] => ([], st)
  | data :: rest =>
      let '(evs, st') := notify_cb debug interval st data in
      let '(evs', st'') := deliver st' rest in
      (map Callback evs ++ evs', st'')
  end.

(** [while client.is_connected: await asyncio.sleep(10)] *)
Fixpoint poll (st : ble_locals) (polls : list (list (list byte)))
    : list event * ble_locals :=
  match polls with
  | [] => ([], st)
  | notifications :: rest =>
      let '(evs, st') := deliver st notifications in
      let '(evs', st'') := poll st' rest in
      (Sleep 10 :: evs ++ evs', st'')
  end.

(** The inner [while True]. *)
Fixpoint connected (st : ble_locals) (rounds : list round) : list event * loop_exit :=
  match rounds with
  | [] => ([], LoopPending st)
  | NotConnected :: _ => ([WatchDogTouch; Log MsgDisconnected], LoopBroken st)
  | NotifyRaises e :: _ => ([WatchDogTouch], LoopRaised e st)
  | Subscribed polls :: rest =>
      let '(evs, st') := poll st polls in
      let '(evs', x) := connected st' rest in
      (WatchDogTouch :: evs ++ evs', x)
  end.

(** The [except Exception as e] clause. *)
Definition handler (e : exn) : list event :=
  if isinstance e BleakDeviceNotFoundError then [Log MsgNotFound; Sleep 60]
  else if str_in "[org.bluez.Error.InProgress]" (exn_str e)
  then [Log MsgDeviceBusy; Sleep 20]
  else [Log (MsgFailedConnecting e); Sleep 10].

Definition raised (evs : list event) (st : ble_locals) (e : exn)
    : list event * session_exit :=
  if is_Exception e then (evs ++ handler e, Next st) else (evs, Escaped e).

(** One pass through the outer [while True]. *)
Definition session (st : ble_locals) (s : session_input) : list event * session_exit :=
  let st := {| ble_print_count := ble_print_count st; ble_worked := false |} in
  let start := [WatchDogTouch; Log MsgConnecting] in
  match s with
  | EnterRaises e => raised start st e
  | Entered rounds =>
      let '(evs, x) := connected st rounds in
      let evs := start ++ [Log MsgConnected] ++ evs in
      match x with
      | LoopBroken st' => (evs, Next st')
      | LoopRaised e st' => raised evs st' e
      | LoopPending st' => (evs, InSession st')
      end
  end.

(** The outer [while True]. *)
Fixpoint sessions (st : ble_locals) (inputs : list session_input)
    : list event * session_exit :=
  match inputs with
  | [] => ([], Next st)
  | s :: rest =>
      let '(evs, x) := session st s in
      match x with
      | Next st' => let '(evs', y) := sessions st' rest in (evs ++ evs', y)
      | _ => (evs, x)
      end
  end.

(** [run_ble(address)] *)
Definition run_ble (inputs : list session_input) : list event * session_exit :=
  let '(evs, x) := sessions {| ble_print_count := 0; ble_worked := false |} inputs in
  (Log MsgJobStarted :: WatchDogOn :: evs, x).

End RunBle.

(** The pauses of a trace, its watchdog touches ([run_ble]'s own and the
    callback's), and the readings it prints. *)
Definition sleeps (evs : list event) : list float :=
  omap (λ ev, match ev with Sleep d => Some d | _ => None end) evs.

Definition is_touch (ev : event) : bool :=
  match ev with
  | WatchDogTouch | Callback Meter.WatchDogTouch => true
  | _ => false
  end.

Definition touches (evs : list event) : nat := length (List.filter is_touch evs).

End MeterBle.

(** * Properties *)

(** ** The BLE multi-sensor decoder *)

Module BlitzSpec.
Import Blitz.

Lemma byte_val_range (b : byte) : 0 ≤ byte_val b ≤ 255.
Proof.
  unfold byte_val. pose proof (Byte.to_N_bounded b). lia.
Qed.

(** Masking a byte with any Python integer, negative ones included, stays
    a byte: the first assertion of [parse] cannot fail in [parse_data]. *)
Lemma land_byte_range (b : byte) (mask : Z) : 0 ≤ Z.land (byte_val b) mask ≤ 255.
Proof.
  pose proof (byte_val_range b) as Hb.
  assert (Hl : Z.land (byte_val b) mask = Z.land (byte_val b) mask `mod` 2 ^ 8).
  { rewrite <- (Z.land_ones _ 8) by lia.
    rewrite <- Z.land_assoc, (Z.land_comm mask), Z.land_assoc.
    rewrite (Z.land_ones (byte_val b) 8) by lia.
    rewrite Z.mod_small by lia. reflexivity. }
  rewrite Hl.
  pose proof (Z.mod_pos_bound (Z.land (byte_val b) mask) (2 ^ 8) ltac:(lia)). lia.
Qed.

Lemma parse_eq (data : Z) :
  0 ≤ data ≤ 255 →
  parse data =
    if has_bits data 0x80 && has_bits data 0x10
    then Raise assertion_error
    else Ok {| is_htu21d_online := has_bits data 0x80;
               is_bmp280_online := has_bits data 0x40;
               is_gy302_online := has_bits data 0x20;
               is_sht4x_online := has_bits data 0x10;
               is_end_of_battery := has_bits data 0x01 |}.
Proof.
  intros Hd. unfold parse.
  replace ((0 <=? data) && (data <=? 255)) with true
    by (symmetry; apply andb_true_iff; lia).
  cbn [assert_ mbind result_bind is_htu21d_online is_sht4x_online].
  destruct (has_bits data 128 && has_bits data 16); reflexivity.
Qed.

Ltac explode_frame raw Hlen :=
  do 18 (destruct raw as [|? raw]; try discriminate Hlen).

Lemma parse_data_wrong_length (raw_data : list byte) (mask : Z) :
  length raw_data ≠ 17%nat → parse_data raw_data mask = Raise assertion_error.
Proof.
  intros Hlen. unfold parse_data.
  rewrite bool_decide_eq_false_2 by done. reflexivity.
Qed.

(** What [parse_data] does on a 17-byte payload, key by key. *)
Lemma parse_data_cases (raw_data : list byte) (mask : Z) :
  length raw_data = 17%nat →
  ∃ b1, raw_data !! 1%nat = Some b1 ∧
    let data := Z.land (byte_val b1) mask in
    if has_bits data 0x80 && has_bits data 0x10
    then parse_data raw_data mask = Raise assertion_error
    else ∃ ans, parse_data raw_data mask = Ok ans ∧
      ans !! "status" = Some (VStatus
           {| is_htu21d_online := has_bits data 0x80;
              is_bmp280_online := has_bits data 0x40;
              is_gy302_online := has_bits data 0x20;
              is_sht4x_online := has_bits data 0x10;
              is_end_of_battery := has_bits data 0x01 |}) ∧
      ans !! "supply_voltage" = VFloat <$> returned (supply_voltage (slice 2 4 raw_data)) ∧
      ans !! "temperature" =
        (if has_bits data 0x10
         then VFloat <$> returned (sht4x_temperature (slice 4 6 raw_data))
         else if has_bits data 0x80
         then VFloat <$> returned (htu21d_temperature (slice 4 6 raw_data))
         else None) ∧
      ans !! "humidity" =
        (if has_bits data 0x10
         then VFloat <$> returned (sht4x_humidity (slice 6 8 raw_data))
         else if has_bits data 0x80
         then VFloat <$> returned (htu21d_humidity (slice 6 8 raw_data))
         else None) ∧
      ans !! "pressure" =
        (if has_bits data 0x40
         then VFloat <$> returned (bmp280_pressure (slice 8 12 raw_data))
         else None) ∧
      ans !! "temperature_aux" =
        (if has_bits data 0x40
         then VFloat <$> returned (bmp280_temperature (slice 12 14 raw_data))
         else None) ∧
      ans !! "light" =
        (if has_bits data 0x20
         then VFloat <$> returned (gy302_light (slice 14 16 raw_data))
         else None).
Proof.
  intros Hlen. explode_frame raw_data Hlen.
  eexists; split; [reflexivity|]. cbv zeta.
  unfold parse_data.
  cbn [length bool_decide assert_ mbind result_bind getitem lookup list_lookup].
  rewrite parse_eq by apply land_byte_range.
  generalize (has_bits (Z.land (byte_val b0) mask) 1).
  generalize (has_bits (Z.land (byte_val b0) mask) 16).
  generalize (has_bits (Z.land (byte_val b0) mask) 32).
  generalize (has_bits (Z.land (byte_val b0) mask) 64).
  generalize (has_bits (Z.land (byte_val b0) mask) 128).
  intros [] [] [] [] ?; cbn [andb]; try reflexivity.
  all: eexists; (split; [reflexivity|]).
  all: repeat split; simplify_map_eq; reflexivity.
Qed.

(** A successful decode had 17 bytes and not both temperature bits. *)
Lemma parse_data_ok_inv (raw_data : list byte) (mask : Z) (ans : gmap string pyval) :
  parse_data raw_data mask = Ok ans →
  ∃ b1, length raw_data = 17%nat ∧ raw_data !! 1%nat = Some b1 ∧
    has_bits (Z.land (byte_val b1) mask) 0x80
      && has_bits (Z.land (byte_val b1) mask) 0x10 = false.
Proof.
  intros Hok.
  destruct (decide (length raw_data = 17%nat)) as [Hlen|Hlen].
  - destruct (parse_data_cases raw_data mask Hlen) as (b1 & Hb1 & Hcases).
    exists b1. repeat split; try done.
    cbv zeta in Hcases.
    destruct (has_bits _ 128 && has_bits _ 16); [congruence | reflexivity].
  - rewrite parse_data_wrong_length in Hok by done. discriminate.
Qed.

Lemma elem_of_all_bytes (b : byte) : b ∈ all_bytes.
Proof.
  unfold all_bytes. apply list_elem_of_omap.
  exists (N.to_nat (Byte.to_N b)). split.
  - apply elem_of_seq. pose proof (Byte.to_N_bounded b). lia.
  - rewrite N2Nat.id. apply Byte.of_to_N.
Qed.

(** Both humidity decoders, run on each of the 65536 raw values. *)
Lemma humidity_check_all :
  forallb (λ b0, forallb (humidity_check b0) all_bytes) all_bytes = true.
Proof. vm_compute. reflexivity. Qed.

Lemma humidity_check_true (b0 b1 : byte) : humidity_check b0 b1 = true.
Proof.
  pose proof humidity_check_all as H.
  rewrite forallb_forall in H.
  specialize (H b0 (proj1 (list_elem_of_In _ _) (elem_of_all_bytes b0))).
  rewrite forallb_forall in H.
  apply H, list_elem_of_In, elem_of_all_bytes.
Qed.

Lemma in_0_100_returned (r : result float) (h : float) :
  in_0_100 r = true → returned r = Some h →
  (0 <=? h)%float = true ∧ (h <=? 100)%float = true.
Proof.
  destruct r as [x|e]; cbn; [|discriminate].
  intros Hr [= <-]. by apply andb_true_iff in Hr.
Qed.

Lemma humidity_field_range (data : list byte) (h : float) :
  returned (htu21d_humidity data) = Some h ∨ returned (sht4x_humidity data) = Some h →
  (0 <=? h)%float = true ∧ (h <=? 100)%float = true.
Proof.
  intros Hh.
  destruct (decide (length data = 2%nat)) as [Hlen|Hlen].
  - destruct data as [|b0 [|b1 [|b2 rest]]]; try discriminate Hlen.
    pose proof (humidity_check_true b0 b1) as Hc.
    apply andb_true_iff in Hc as [Hc1 Hc2].
    destruct Hh as [Hh|Hh];
      [exact (in_0_100_returned _ _ Hc1 Hh) | exact (in_0_100_returned _ _ Hc2 Hh)].
  - unfold htu21d_humidity, sht4x_humidity in Hh.
    rewrite bool_decide_eq_false_2 in Hh by done.
    destruct Hh as [Hh|Hh]; discriminate Hh.
Qed.

(** C6. For every raw 16-bit humidity field, the HTU21D and the SHT4X
    decoders both return a value [h] with [0 <= h <= 100] (binary64
    comparisons); hence a humidity stored by [parse_data], for either
    sub-sensor type, any payload and any mask, lies in [0, 100]. *)
Theorem humidity_within_0_100 (data : list byte) :
  length data = 2%nat →
  (∃ h, htu21d_humidity data = Ok h
        ∧ (0 <=? h)%float = true ∧ (h <=? 100)%float = true) ∧
  (∃ h, sht4x_humidity data = Ok h
        ∧ (0 <=? h)%float = true ∧ (h <=? 100)%float = true) ∧
  (∀ raw_data mask ans v,
     slice 6 8 raw_data = data →
     parse_data raw_data mask = Ok ans →
     ans !! "humidity" = Some v →
     ∃ h, v = VFloat h ∧ (0 <=? h)%float = true ∧ (h <=? 100)%float = true).
Proof.
  intros Hlen.
  destruct data as [|b0 [|b1 [|b2 rest]]]; try discriminate Hlen.
  split; [|split].
  - eexists; split; [reflexivity|].
    apply (humidity_field_range [b0; b1]). left. reflexivity.
  - eexists; split; [reflexivity|].
    apply (humidity_field_range [b0; b1]). right. reflexivity.
  - intros raw_data mask ans v Hslice Hok Hv.
    destruct (parse_data_ok_inv _ _ _ Hok) as (b & Hl & _ & _).
    destruct (parse_data_cases raw_data mask Hl) as (b' & _ & Hcases).
    cbv zeta in Hcases.
    destruct (has_bits _ 128 && has_bits _ 16); [congruence|].
    destruct Hcases as (ans' & Hok' & _ & _ & _ & Hhum & _).
    assert (ans' = ans) as -> by congruence.
    rewrite Hv, Hslice in Hhum.
    destruct (has_bits _ 16); [|destruct (has_bits _ 128)]; try discriminate Hhum.
    + revert Hhum.
      destruct (returned (sht4x_humidity [b0; b1])) as [h|] eqn:Eh; [|discriminate].
      intros [= ->]. exists h. split; [reflexivity|].
      apply (humidity_field_range [b0; b1]). by right.
    + revert Hhum.
      destruct (returned (htu21d_humidity [b0; b1])) as [h|] eqn:Eh; [|discriminate].
      intros [= ->]. exists h. split; [reflexivity|].
      apply (humidity_field_range [b0; b1]). by left.
Qed.

Lemma humidity_within_0_100_witness :
  (∃ h, htu21d_humidity [xff; xff] = Ok h
        ∧ (0 <=? h)%float = true ∧ (h <=? 100)%float = true).
Proof.
  exact (proj1 (humidity_within_0_100 [xff; xff] eq_refl)).
Defined.

(** The clamp is exercised at both ends of the raw range. *)
Example humidity_clamped_low :
  htu21d_humidity [x00; x00] = Ok 0%float ∧ sht4x_humidity [x00; x00] = Ok 0%float.
Proof. split; reflexivity. Qed.

Example humidity_clamped_high :
  htu21d_humidity [xff; xff] = Ok 100%float ∧ sht4x_humidity [xff; xff] = Ok 100%float.
Proof. split; reflexivity. Qed.

Lemma slice_length (a b : nat) (data : list byte) :
  (b ≤ length data)%nat → length (slice a b data) = (b - a)%nat.
Proof.
  intros Hb. unfold slice. rewrite length_take, length_drop. lia.
Qed.

Ltac field_returns :=
  intros Hlen; eexists;
  match goal with |- ?f _ = _ => unfold f end;
  rewrite bool_decide_eq_true_2 by done; reflexivity.

Lemma supply_voltage_returns data :
  length data = 2%nat → ∃ v, supply_voltage data = Ok v.
Proof. field_returns. Qed.
Lemma htu21d_temperature_returns data :
  length data = 2%nat → ∃ v, htu21d_temperature data = Ok v.
Proof. field_returns. Qed.
Lemma htu21d_humidity_returns data :
  length data = 2%nat → ∃ v, htu21d_humidity data = Ok v.
Proof. field_returns. Qed.
Lemma sht4x_temperature_returns data :
  length data = 2%nat → ∃ v, sht4x_temperature data = Ok v.
Proof. field_returns. Qed.
Lemma sht4x_humidity_returns data :
  length data = 2%nat → ∃ v, sht4x_humidity data = Ok v.
Proof. field_returns. Qed.
Lemma bmp280_pressure_returns data :
  length data = 4%nat → ∃ v, bmp280_pressure data = Ok v.
Proof. field_returns. Qed.
Lemma bmp280_temperature_returns data :
  length data = 2%nat → ∃ v, bmp280_temperature data = Ok v.
Proof. field_returns. Qed.
Lemma gy302_light_returns data :
  length data = 2%nat → ∃ v, gy302_light data = Ok v.
Proof. field_returns. Qed.

Lemma fmap_returned_is_Some {A} (r : result A) (f : A → pyval) :
  (∃ v, r = Ok v) → is_Some (f <$> returned r).
Proof. intros [v ->]. by eexists. Qed.

(** C7. For every 17-byte frame that does not have both temperature bits
    set after masking, [parse_data] returns a dictionary in which
    "temperature" and "humidity" are present exactly when the HTU21D or
    the SHT4X bit is set, "pressure" and "temperature_aux" exactly when
    the BMP280 bit is set, and "light" exactly when the GY302 bit is set;
    the keys of absent sensors are missing, not bound to zero. *)
Theorem fields_follow_presence_bits (raw_data : list byte) (mask : Z) (b1 : byte) :
  length raw_data = 17%nat →
  raw_data !! 1%nat = Some b1 →
  has_bits (Z.land (byte_val b1) mask) 0x80
    && has_bits (Z.land (byte_val b1) mask) 0x10 = false →
  ∃ ans, parse_data raw_data mask = Ok ans ∧
    (is_Some (ans !! "temperature") ↔
       has_bits (Z.land (byte_val b1) mask) 0x80 = true
       ∨ has_bits (Z.land (byte_val b1) mask) 0x10 = true) ∧
    (is_Some (ans !! "humidity") ↔
       has_bits (Z.land (byte_val b1) mask) 0x80 = true
       ∨ has_bits (Z.land (byte_val b1) mask) 0x10 = true) ∧
    (is_Some (ans !! "pressure") ↔ has_bits (Z.land (byte_val b1) mask) 0x40 = true) ∧
    (is_Some (ans !! "temperature_aux") ↔
       has_bits (Z.land (byte_val b1) mask) 0x40 = true) ∧
    (is_Some (ans !! "light") ↔ has_bits (Z.land (byte_val b1) mask) 0x20 = true).
Proof.
  intros Hlen Hb1 Hexcl.
  destruct (parse_data_cases raw_data mask Hlen) as (b & Hb & Hcases).
  assert (b = b1) as -> by congruence.
  cbv zeta in Hcases. rewrite Hexcl in Hcases.
  destruct Hcases as (ans & Hok & _ & _ & Ht & Hh & Hp & Ha & Hl).
  exists ans. split; [exact Hok|].
  rewrite Ht, Hh, Hp, Ha, Hl.
  pose proof (fmap_returned_is_Some _ VFloat
    (sht4x_temperature_returns _ (slice_length 4 6 raw_data ltac:(lia)))).
  pose proof (fmap_returned_is_Some _ VFloat
    (sht4x_humidity_returns _ (slice_length 6 8 raw_data ltac:(lia)))).
  pose proof (fmap_returned_is_Some _ VFloat
    (htu21d_temperature_returns _ (slice_length 4 6 raw_data ltac:(lia)))).
  pose proof (fmap_returned_is_Some _ VFloat
    (htu21d_humidity_returns _ (slice_length 6 8 raw_data ltac:(lia)))).
  pose proof (fmap_returned_is_Some _ VFloat
    (bmp280_pressure_returns _ (slice_length 8 12 raw_data ltac:(lia)))).
  pose proof (fmap_returned_is_Some _ VFloat
    (bmp280_temperature_returns _ (slice_length 12 14 raw_data ltac:(lia)))).
  pose proof (fmap_returned_is_Some _ VFloat
    (gy302_light_returns _ (slice_length 14 16 raw_data ltac:(lia)))).
  pose proof (@is_Some_None pyval).
  destruct (has_bits _ 128), (has_bits _ 64), (has_bits _ 32), (has_bits _ 16);
    repeat split; intros; try tauto; try discriminate;
    try (exfalso; intuition discriminate).
Qed.

Lemma fields_follow_presence_bits_witness :
  ∃ ans, parse_data (sample_frame x60) 0xff = Ok ans ∧
    (is_Some (ans !! "temperature") ↔
       has_bits (Z.land (byte_val x60) 0xff) 0x80 = true
       ∨ has_bits (Z.land (byte_val x60) 0xff) 0x10 = true) ∧
    (is_Some (ans !! "humidity") ↔
       has_bits (Z.land (byte_val x60) 0xff) 0x80 = true
       ∨ has_bits (Z.land (byte_val x60) 0xff) 0x10 = true) ∧
    (is_Some (ans !! "pressure") ↔ has_bits (Z.land (byte_val x60) 0xff) 0x40 = true) ∧
    (is_Some (ans !! "temperature_aux") ↔
       has_bits (Z.land (byte_val x60) 0xff) 0x40 = true) ∧
    (is_Some (ans !! "light") ↔ has_bits (Z.land (byte_val x60) 0xff) 0x20 = true).
Proof.
  apply (fields_follow_presence_bits (sample_frame x60) 0xff x60); reflexivity.
Defined.

(** A frame with only BMP280 and GY302 online: no temperature, no
    humidity, and the other fields decoded. *)
Example absent_fields_are_missing :
  ∃ ans, parse_data (sample_frame x60) 0xff = Ok ans ∧
    ans !! "temperature" = None ∧ ans !! "humidity" = None ∧
    ans !! "pressure" = Some (VFloat 64) ∧
    ans !! "temperature_aux" = Some (VFloat (-10)) ∧
    ans !! "light" = Some (VFloat 100).
Proof. eexists. split; [reflexivity|]. repeat split; reflexivity. Qed.

(** The mask hides the sensors it clears: with mask [0x0f] nothing is
    online and only the status and the supply voltage are stored. *)
Example masked_frame_has_voltage_only :
  ∃ ans, parse_data (sample_frame xf0) 0x0f = Ok ans ∧
    ans !! "supply_voltage" = Some (VFloat 1) ∧
    ans !! "temperature" = None ∧ ans !! "pressure" = None ∧ ans !! "light" = None.
Proof. eexists. split; [reflexivity|]. repeat split; reflexivity. Qed.

(** C9. Whenever [parse_data] returns, whatever the status byte and the
    mask, the dictionary binds "supply_voltage" (to the little-endian
    field at bytes 2..3 divided by 1000), and the read loop hands that
    dictionary to the sink, also when no sensor is online. *)
Theorem supply_voltage_always_present
    (raw_data : list byte) (mask : Z) (ans : gmap string pyval) :
  parse_data raw_data mask = Ok ans →
  ans !! "supply_voltage"
    = Some (VFloat (float_of_int (from_bytes_little (slice 2 4 raw_data)) / 1000.0)%float)
  ∧ ∀ debug min_interval st i,
      readings (report debug min_interval st i ans).1 = [ans].
Proof.
  intros Hok.
  destruct (parse_data_ok_inv _ _ _ Hok) as (b1 & Hlen & Hb1 & Hexcl).
  destruct (parse_data_cases raw_data mask Hlen) as (b & Hb & Hcases).
  assert (b = b1) as -> by congruence.
  cbv zeta in Hcases. rewrite Hexcl in Hcases.
  destruct Hcases as (ans' & Hok' & Hst & Hv & _).
  assert (ans' = ans) as -> by congruence.
  split.
  - rewrite Hv. unfold supply_voltage.
    rewrite bool_decide_eq_true_2 by (apply slice_length; lia). reflexivity.
  - intros debug min_interval st i. unfold report, status_of. rewrite Hst.
    cbv zeta.
    destruct (influx_print_raises i), (negb (worked st)),
      (negb _ && negb _ && negb _ && negb _), (has_bits _ 1), debug;
      try destruct (0 <? _)%float; reflexivity.
Qed.

Lemma supply_voltage_always_present_witness :
  default ∅ (returned (parse_data (sample_frame x00) 0xff)) !! "supply_voltage"
    = Some (VFloat (float_of_int (from_bytes_little (slice 2 4 (sample_frame x00)))
                    / 1000.0)%float).
Proof.
  apply (supply_voltage_always_present (sample_frame x00) 0xff). reflexivity.
Defined.

(** With no sensor online the read loop warns and still emits the reading,
    which carries the supply voltage. *)
Example no_sensor_online_still_reports :
  ∃ ans,
    read_iteration false 120 0xff {| timeout_count := 3; worked := true |}
      (sample_read (sample_frame x00))
    = ([Log MsgNoSensorOnline; InfluxPrint ans; Sleep 119],
       Continue {| timeout_count := 0; worked := true |})
    ∧ ans !! "supply_voltage" = Some (VFloat 1).
Proof. eexists. split; reflexivity. Qed.

Section Supervisor.
Context (debug : bool) (min_interval : Z) (address : string) (mask : Z).

#[local] Abbreviation read_iteration := (read_iteration debug min_interval mask).
#[local] Abbreviation read_loop := (read_loop debug min_interval mask).
#[local] Abbreviation session := (session debug min_interval address mask).
#[local] Abbreviation supervise := (supervise debug min_interval address mask).

Lemma read_iteration_bad_frame st t0 t1 r raw_data :
  bad_frame raw_data = true →
  ∃ evs,
    read_iteration st {| is_connected := true; start_time := t0;
                         read_gatt_char := ReadReturns raw_data;
                         influx_print_raises := r; end_time := t1 |}
    = (evs, Continue (set_worked false st))
    ∧ readings evs = []
    ∧ sleeps evs = if bool_decide (raw_data = replicate 17 x00) then [30%float] else [].
Proof.
  intros Hbad. unfold read_iteration. cbn [is_connected read_gatt_char negb].
  rewrite Hbad. eexists. split; [reflexivity|].
  destruct (bool_decide (raw_data = replicate 17 x00)); split; reflexivity.
Qed.

Lemma read_loop_app st before rest evs st' :
  read_loop st before = (evs, LoopPending st') →
  read_loop st (before ++ rest) = (evs ++ (read_loop st' rest).1, (read_loop st' rest).2).
Proof.
  revert st evs. induction before as [|i before IH]; intros st evs Hb.
  - cbn in Hb. injection Hb as <- <-. cbn [app]. by destruct (read_loop st rest).
  - cbn [app Blitz.read_loop] in Hb |- *.
    destruct (read_iteration st i) as [evs1 c].
    destruct c as [st1|st1|e]; try discriminate Hb.
    destruct (read_loop st1 before) as [evs2 x] eqn:Hrec. injection Hb as <- ->.
    rewrite (IH _ _ Hrec). cbn [fst snd]. by rewrite app_assoc.
Qed.

(** Inside the read loop the timeout counter is only ever set to 0. *)
Lemma read_iteration_count st i :
  match (read_iteration st i).2 with
  | Continue st' | Break st' =>
      timeout_count st' = timeout_count st ∨ timeout_count st' = 0
  | Propagate _ => True
  end.
Proof.
  unfold Blitz.read_iteration.
  destruct (negb (is_connected i)); [cbn; by left|].
  destruct (read_gatt_char i) as [e|raw_data].
  - destruct (negb (is_Exception e)); [exact I|]. destruct (str_in _ _); cbn; by left.
  - destruct (bad_frame raw_data); [cbn; by left|].
    destruct (parse_data raw_data mask) as [data|e]; [|exact I].
    unfold report. destruct (status_of data); [|exact I].
    destruct (influx_print_raises i); [exact I|]. cbn. by right.
Qed.

Lemma read_loop_count st reads :
  count_at_exit (read_loop st reads).2 = timeout_count st
  ∨ count_at_exit (read_loop st reads).2 = 0.
Proof.
  revert st. induction reads as [|i reads IH]; intros st; [by left|].
  cbn [Blitz.read_loop]. pose proof (read_iteration_count st i) as Hi.
  destruct (read_iteration st i) as [evs c]. cbn [snd] in Hi.
  destruct c as [st'|st'|e].
  - specialize (IH st'). destruct (read_loop st' reads) as [evs' x]. cbn [snd] in *.
    destruct Hi as [<- | Hi]; [exact IH|]. right. rewrite Hi in IH. by destruct IH.
  - cbn. exact Hi.
  - cbn. by left.
Qed.

(** C1 (as the code has it). A 17-byte frame whose masked status byte has
    both the HTU21D and the SHT4X bit set is never decoded: [parse_data]
    raises an [AssertionError], neither sub-sensor is picked and no reading
    is emitted.  The frame is not skipped inside the read loop, though.
    When its marker and trailer are right, the exception leaves the read
    loop wherever in it the frame arrives: the supervisor's
    [except Exception] catches it, the connection is given up, the failure
    is logged as a failed connection, the supervisor pauses 3 seconds and
    starts its next cycle.  The reads that would have followed on that
    connection are never made, and the timeout counter keeps the value it
    had when the frame was read (the one the cycle began with, or 0). *)
Theorem both_temperature_bits_end_the_connection (raw_data : list byte) (b1 : byte) :
  length raw_data = 17%nat →
  raw_data !! 1%nat = Some b1 →
  has_bits (Z.land (byte_val b1) mask) 0x80 = true →
  has_bits (Z.land (byte_val b1) mask) 0x10 = true →
  parse_data raw_data mask = Raise assertion_error
  ∧ is_Exception assertion_error = true
  ∧ ∀ st t0 t1 r,
      let i := {| is_connected := true; start_time := t0;
                  read_gatt_char := ReadReturns raw_data;
                  influx_print_raises := r; end_time := t1 |} in
      readings (read_iteration st i).1 = []
      ∧ (bad_frame raw_data = false →
         read_iteration st i = ([], Propagate assertion_error)
         ∧ ∀ timeout_count before evs rest,
             read_loop {| timeout_count := timeout_count; worked := false |} before
             = (evs, LoopPending st) →
             (Blitz.timeout_count st = timeout_count ∨ Blitz.timeout_count st = 0)
             ∧ session timeout_count (Connected (before ++ i :: rest))
               = (connected_prefix ++ evs
                    ++ [WatchDogOff; Log (MsgFailedConnecting assertion_error); Sleep 3],
                  Next (Blitz.timeout_count st))).
Proof.
  intros Hlen Hb1 Hhtu Hsht.
  destruct (parse_data_cases raw_data mask Hlen) as (b & Hb & Hcases).
  assert (b = b1) as -> by congruence.
  cbv zeta in Hcases. rewrite Hhtu, Hsht in Hcases. cbn [andb] in Hcases.
  split; [exact Hcases|]. split; [reflexivity|].
  intros st t0 t1 r i. subst i.
  assert (Hgood : bad_frame raw_data = false → ∀ st',
                  read_iteration st' {| is_connected := true; start_time := t0;
                    read_gatt_char := ReadReturns raw_data;
                    influx_print_raises := r; end_time := t1 |}
                  = ([], Propagate assertion_error)).
  { intros Hframe st'. unfold Blitz.read_iteration.
    cbn [is_connected read_gatt_char negb]. rewrite Hframe, Hcases. reflexivity. }
  split.
  - destruct (bad_frame raw_data) eqn:Hframe.
    + destruct (read_iteration_bad_frame st t0 t1 r raw_data Hframe) as (evs & -> & Hr & _).
      exact Hr.
    + rewrite Hgood by reflexivity. reflexivity.
  - intros Hframe. split; [by apply Hgood|].
    intros timeout_count before evs rest Hbefore. split.
    + pose proof (read_loop_count {| timeout_count := timeout_count; worked := false |}
                    before) as Hcount.
      rewrite Hbefore in Hcount. exact Hcount.
    + unfold Blitz.session. rewrite (read_loop_app _ _ _ _ _ Hbefore).
      cbn [Blitz.read_loop]. rewrite (Hgood Hframe). cbn [fst snd].
      rewrite app_nil_r. reflexivity.
Qed.

Lemma bad_frame_false_iff (raw_data : list byte) :
  bad_frame raw_data = false ↔
  length raw_data = 17%nat ∧ raw_data !! 0%nat = Some x12 ∧ raw_data !! 16%nat = Some x23.
Proof.
  unfold bad_frame.
  rewrite !orb_false_iff, !negb_false_iff, !bool_decide_eq_true. tauto.
Qed.

Lemma read_loop_continue st i rest evs st' :
  read_iteration st i = (evs, Continue st') →
  read_loop st (i :: rest) = (evs ++ (read_loop st' rest).1, (read_loop st' rest).2).
Proof.
  intros Hi. cbn [Blitz.read_loop]. rewrite Hi.
  destruct (read_loop st' rest); reflexivity.
Qed.

(** C4. In the read loop a reading is emitted for a payload only if it has
    exactly 17 bytes, byte 0 = 0x12 and byte 16 = 0x23.  Any other payload
    is logged as invalid and dropped: no reading is emitted for it and the
    loop goes on with the next read. *)
Theorem frame_check_guards_decoding
    (st : locals) (t0 t1 : float) (r : option exn) (raw_data : list byte) :
  let i := {| is_connected := true; start_time := t0;
              read_gatt_char := ReadReturns raw_data;
              influx_print_raises := r; end_time := t1 |} in
  (readings (read_iteration st i).1 ≠ [] →
   length raw_data = 17%nat ∧ raw_data !! 0%nat = Some x12
   ∧ raw_data !! 16%nat = Some x23)
  ∧ (¬ (length raw_data = 17%nat ∧ raw_data !! 0%nat = Some x12
        ∧ raw_data !! 16%nat = Some x23) →
     ∃ evs,
       read_iteration st i = (evs, Continue (set_worked false st))
       ∧ Log (MsgInvalidData raw_data) ∈ evs
       ∧ readings evs = []
       ∧ ∀ rest, read_loop st (i :: rest)
                 = (evs ++ (read_loop (set_worked false st) rest).1,
                    (read_loop (set_worked false st) rest).2)).
Proof.
  intros i. subst i. split.
  - intros Hr. apply bad_frame_false_iff.
    destruct (bad_frame raw_data) eqn:Hbad; [|reflexivity].
    destruct (read_iteration_bad_frame st t0 t1 r raw_data Hbad) as (evs & Hi & Hnone & _).
    rewrite Hi in Hr. contradiction.
  - intros Hinvalid.
    assert (Hbad : bad_frame raw_data = true).
    { destruct (bad_frame raw_data) eqn:Hbad; [reflexivity|].
      apply bad_frame_false_iff in Hbad. contradiction. }
    unfold Blitz.read_iteration at 1. cbn [is_connected read_gatt_char negb].
    rewrite Hbad. eexists. split; [reflexivity|]. split; [|split].
    + apply elem_of_app. left. apply list_elem_of_singleton. reflexivity.
    + destruct (bool_decide (raw_data = replicate 17 x00)); reflexivity.
    + intros rest. apply read_loop_continue.
      unfold Blitz.read_iteration. cbn [is_connected read_gatt_char negb].
      rewrite Hbad. reflexivity.
Qed.

(** C8 (as the code has it). An all-zero 17-byte frame fails the frame
    check and is logged as invalid data like every other rejected frame.
    The invalid-frame branch then recognises it as "device is not ready":
    no reading is emitted, the loop pauses 30 seconds and continues in the
    read loop.  Other rejected frames are retried without any pause. *)
Theorem all_zero_frame_is_invalid_and_not_ready
    (st : locals) (t0 t1 : float) (r : option exn) :
  let i := {| is_connected := true; start_time := t0;
              read_gatt_char := ReadReturns (replicate 17 x00);
              influx_print_raises := r; end_time := t1 |} in
  bad_frame (replicate 17 x00) = true
  ∧ read_iteration st i
    = ([Log (MsgInvalidData (replicate 17 x00)); Log MsgDeviceNotReady; Sleep 30],
       Continue (set_worked false st))
  ∧ readings (read_iteration st i).1 = []
  ∧ sleeps (read_iteration st i).1 = [30%float]
  ∧ (∀ rest, read_loop st (i :: rest)
             = ((read_iteration st i).1 ++ (read_loop (set_worked false st) rest).1,
                (read_loop (set_worked false st) rest).2))
  ∧ (∀ raw_data, bad_frame raw_data = true → raw_data ≠ replicate 17 x00 →
       read_iteration st {| is_connected := true; start_time := t0;
                            read_gatt_char := ReadReturns raw_data;
                            influx_print_raises := r; end_time := t1 |}
       = ([Log (MsgInvalidData raw_data)], Continue (set_worked false st))).
Proof.
  intros i. subst i.
  assert (Hz : ∀ st', Blitz.read_iteration debug min_interval mask st'
             {| is_connected := true; start_time := t0;
                read_gatt_char := ReadReturns (replicate 17 x00);
                influx_print_raises := r; end_time := t1 |}
           = ([Log (MsgInvalidData (replicate 17 x00)); Log MsgDeviceNotReady; Sleep 30],
              Continue (set_worked false st'))) by reflexivity.
  rewrite !Hz. repeat split.
  - intros rest. by apply read_loop_continue.
  - intros raw_data Hbad Hne. unfold Blitz.read_iteration.
    cbn [is_connected read_gatt_char negb].
    rewrite Hbad, bool_decide_eq_false_2 by done. reflexivity.
Qed.










End Supervisor.



(** Timeouts are counted since the last printed reading, not in a row: a
    device that is not found in between does not restart the count. *)
Example not_found_does_not_restart_the_count :
  (supervise false 120 "" 0xff 0
     (EnterRaises (Exn TimeoutError "") :: FindNone
        :: replicate 10 (EnterRaises (Exn TimeoutError "")))).2
  = Next 11.
Proof. reflexivity. Qed.

(** The counter goes back to 0 on the next decoded frame. *)
Example decoded_frame_resets_counter :
  (session false 120 "" 0xff 11
     (Connected [sample_read (sample_frame x60);
                 {| is_connected := false; start_time := 0; end_time := 0;
                    influx_print_raises := None;
                    read_gatt_char := ReadReturns [] |}])).2
  = Next 0.
Proof. reflexivity. Qed.

(** The reset holds when the connection then ends by an exception: the
    timeout after it is the first again and is not escalated. *)
Example reset_survives_a_failed_connection :
  ∃ tr,
    supervise false 120 "" 0xff 10
      [Connected [sample_read (sample_frame x60); sample_read (sample_frame x90)];
       EnterRaises (Exn TimeoutError "")]
    = (tr, Next 1)
    ∧ sleeps tr = [119; 3; 3]%float.
Proof. eexists. split; reflexivity. Qed.

(** When [influx_print] raises, the counter is not reset. *)
Example failed_print_keeps_the_count :
  (session false 120 "" 0xff 7
     (Connected [{| is_connected := true; start_time := 0; end_time := 1;
                    influx_print_raises := Some (Exn ExceptionOther "");
                    read_gatt_char := ReadReturns (sample_frame x60) |}])).2
  = Next 7.
Proof. reflexivity. Qed.

(** A frame with both temperature bits ends the connection; the frame
    that would have followed is never read. *)
Example both_bits_frame_ends_session :
  session false 120 "" 0xff 4
    (Connected [sample_read (sample_frame x90); sample_read (sample_frame x60)])
  = (connected_prefix
       ++ [WatchDogOff; Log (MsgFailedConnecting assertion_error); Sleep 3],
     Next 4).
Proof. reflexivity. Qed.

Lemma both_temperature_bits_end_the_connection_witness :
  parse_data (sample_frame x90) 0xff = Raise assertion_error
  ∧ (session false 120 "" 0xff 4
       (Connected [sample_read (sample_frame x60); sample_read (sample_frame x90);
                   sample_read (sample_frame x60)])).2
    = Next 0.
Proof.
  destruct (both_temperature_bits_end_the_connection false 120 "" 0xff
              (sample_frame x90) x90 eq_refl eq_refl eq_refl eq_refl)
    as (Hparse & _ & Hloop).
  split; [exact Hparse|].
  destruct (Hloop {| timeout_count := 0; worked := true |} 0%float 1%float None)
    as [_ Hgood].
  destruct (Hgood eq_refl) as [_ Hsession].
  destruct (Hsession 4 [sample_read (sample_frame x60)]
              (read_loop false 120 0xff {| timeout_count := 4; worked := false |}
                 [sample_read (sample_frame x60)]).1
              [sample_read (sample_frame x60)] eq_refl) as [_ Heq].
  exact (f_equal snd Heq).
Defined.

(** C1 as stated fails: the frame is not skipped with the read loop going
    on.  Decoding it raises out of the read loop without the invalid-data
    line, and the good frame behind it is never read, whereas behind a
    frame with a wrong marker it is. *)
Lemma both_bits_frame_is_not_skipped :
  bad_frame (sample_frame x90) = false
  ∧ read_iteration false 120 0xff {| timeout_count := 0; worked := false |}
      (sample_read (sample_frame x90))
    = ([], Propagate assertion_error)
  ∧ length (readings (session false 120 "" 0xff 0
                        (Connected [sample_read (sample_frame x90);
                                    sample_read (sample_frame x60)])).1) = 0%nat
  ∧ length (readings (session false 120 "" 0xff 0
                        (Connected [sample_read (x00 :: tail (sample_frame x90));
                                    sample_read (sample_frame x60)])).1) = 1%nat.
Proof. repeat split. Qed.

(** C8 as stated fails: the all-zero frame does not pass the frame check,
    and the read loop logs it as invalid data before it reports the device
    as not ready. *)
Lemma all_zero_frame_is_logged_as_invalid :
  bad_frame (replicate 17 x00) = true
  ∧ Log (MsgInvalidData (replicate 17 x00))
      ∈ (read_iteration false 120 0xff {| timeout_count := 0; worked := false |}
           (sample_read (replicate 17 x00))).1.
Proof. split; [reflexivity|]. apply list_elem_of_here. Qed.

End BlitzSpec.

(** ** The electricity-meter decoder and the serial read loop *)

Module MeterSpec.
Import Meter.

Ltac explode_meter_frame raw Hlen :=
  do 37 (destruct raw as [|? raw]; try discriminate Hlen).

Lemma from_bytes_big_1 (a : byte) : from_bytes_big [a] = byte_val a.
Proof. unfold from_bytes_big. cbn [fold_left]. lia. Qed.

Lemma from_bytes_big_2 (a b : byte) :
  from_bytes_big [a; b] = 256 * byte_val a + byte_val b.
Proof. unfold from_bytes_big. cbn [fold_left]. lia. Qed.

(** The eleven fields of a 36-byte frame, by offset. *)
Lemma parse_data_fields (raw_data : list byte) :
  length raw_data = 36%nat →
  parse_data raw_data !! "voltage"
    = Some (VFloat (float_of_int (be16 raw_data 5) / 10.0)%float)
  ∧ parse_data raw_data !! "current"
    = Some (VFloat (float_of_int (be16 raw_data 8) / 1000.0)%float)
  ∧ parse_data raw_data !! "power"
    = Some (VFloat (float_of_int (be16 raw_data 11) / 10.0)%float)
  ∧ parse_data raw_data !! "kwh"
    = Some (VFloat (float_of_int (be16 raw_data 15) / 100.0)%float)
  ∧ parse_data raw_data !! "price"
    = Some (VFloat (float_of_int (u8 raw_data 19) / 100.0)%float)
  ∧ parse_data raw_data !! "freq"
    = Some (VFloat (float_of_int (be16 raw_data 20) / 10.0)%float)
  ∧ parse_data raw_data !! "coef"
    = Some (VFloat (float_of_int (be16 raw_data 22) / 1000.0)%float)
  ∧ parse_data raw_data !! "temperature" = Some (VInt (u8 raw_data 25))
  ∧ parse_data raw_data !! "h" = Some (VInt (be16 raw_data 26))
  ∧ parse_data raw_data !! "m" = Some (VInt (u8 raw_data 28))
  ∧ parse_data raw_data !! "s" = Some (VInt (u8 raw_data 29)).
Proof.
  intros Hlen. explode_meter_frame raw_data Hlen.
  unfold parse_data, be16, u8.
  cbn [slice take drop Nat.sub Nat.add lookup list_lookup].
  rewrite ?from_bytes_big_1, ?from_bytes_big_2.
  repeat split; simplify_map_eq; reflexivity.
Qed.

Lemma readings_emit debug interval print_count worked data :
  readings (emit debug interval print_count worked data).1
  = if print_count `mod` interval =? 0 then [data] else [].
Proof.
  unfold emit.
  destruct (negb worked), debug, (print_count `mod` interval =? 0); reflexivity.
Qed.

Lemma spp_invalid_true_iff (raw_data : list byte) :
  spp_invalid raw_data = true ↔
  (length raw_data < 32)%nat ∨ slice 0 4 raw_data ≠ header.
Proof.
  unfold spp_invalid.
  rewrite orb_true_iff, negb_true_iff, bool_decide_eq_false, Nat.ltb_lt. tauto.
Qed.

Lemma spp_iteration_valid debug interval st raw_data :
  spp_invalid raw_data = false →
  spp_iteration debug interval st raw_data
  = ((emit debug interval (print_count st) (worked st) (parse_data raw_data)).1,
     Continue {| print_count :=
                   (emit debug interval (print_count st) (worked st) (parse_data raw_data)).2;
                 reconnect_count := 0; worked := true |}).
Proof.
  intros Hv. unfold spp_iteration. rewrite Hv.
  destruct (emit _ _ _ _ _). reflexivity.
Qed.

Lemma spp_iteration_invalid debug interval st raw_data :
  spp_invalid raw_data = true →
  spp_iteration debug interval st raw_data
  = if reconnect_threshold <? reconnect_count st
    then ([], Raises too_many_errors)
    else ([Log (MsgInvalidRetry (length raw_data) (reconnect_count st) reconnect_threshold)],
          Continue {| print_count := print_count st;
                      reconnect_count := reconnect_count st + 1;
                      worked := false |}).
Proof. intros Hv. unfold spp_iteration. rewrite Hv. reflexivity. Qed.

(** C5. A 36-byte frame that begins with ff 55 01 01 is accepted on the
    serial and on the notification path and decodes, big-endian, to
    voltage = bytes[5:7]/10, current = bytes[8:10]/1000, power =
    bytes[11:13]/10, energy = bytes[15:17]/100, price = byte 19 /100,
    frequency = bytes[20:22]/10, power factor = bytes[22:24]/1000,
    temperature = byte 25, and the clock bytes[26:28] : byte 28 : byte 29.
    A frame shorter than 32 bytes or with another header is rejected on
    both paths and yields no reading. *)
Theorem meter_frame_decoding (debug : bool) (interval : Z) (raw_data : list byte) :
  length raw_data = 36%nat →
  slice 0 4 raw_data = header →
  (parse_data raw_data !! "voltage"
     = Some (VFloat (float_of_int (be16 raw_data 5) / 10.0)%float)
   ∧ parse_data raw_data !! "current"
     = Some (VFloat (float_of_int (be16 raw_data 8) / 1000.0)%float)
   ∧ parse_data raw_data !! "power"
     = Some (VFloat (float_of_int (be16 raw_data 11) / 10.0)%float)
   ∧ parse_data raw_data !! "kwh"
     = Some (VFloat (float_of_int (be16 raw_data 15) / 100.0)%float)
   ∧ parse_data raw_data !! "price"
     = Some (VFloat (float_of_int (u8 raw_data 19) / 100.0)%float)
   ∧ parse_data raw_data !! "freq"
     = Some (VFloat (float_of_int (be16 raw_data 20) / 10.0)%float)
   ∧ parse_data raw_data !! "coef"
     = Some (VFloat (float_of_int (be16 raw_data 22) / 1000.0)%float)
   ∧ parse_data raw_data !! "temperature" = Some (VInt (u8 raw_data 25))
   ∧ parse_data raw_data !! "h" = Some (VInt (be16 raw_data 26))
   ∧ parse_data raw_data !! "m" = Some (VInt (u8 raw_data 28))
   ∧ parse_data raw_data !! "s" = Some (VInt (u8 raw_data 29)))
  ∧ (∀ st, ∃ evs st',
       spp_iteration debug interval st raw_data = (evs, Continue st')
       ∧ readings evs
         = if print_count st `mod` interval =? 0 then [parse_data raw_data] else [])
  ∧ (∀ st,
       readings (notify_cb debug interval st raw_data).1
       = if ble_print_count st `mod` interval =? 0 then [parse_data raw_data] else [])
  ∧ (∀ bad, (length bad < 32)%nat ∨ slice 0 4 bad ≠ header →
       (∀ st, readings (spp_iteration debug interval st bad).1 = [])
       ∧ (∀ st, readings (notify_cb debug interval st bad).1 = [])).
Proof.
  intros Hlen Hhdr. split; [by apply parse_data_fields|].
  assert (Hspp : spp_invalid raw_data = false).
  { unfold spp_invalid. rewrite Hlen, Hhdr, bool_decide_eq_true_2 by done. reflexivity. }
  assert (Hble : ble_valid raw_data = true).
  { unfold ble_valid. rewrite Hlen, Hhdr, !bool_decide_eq_true_2 by done. reflexivity. }
  split; [|split].
  - intros st. rewrite spp_iteration_valid by done.
    do 2 eexists. split; [reflexivity|]. cbn [fst]. apply readings_emit.
  - intros st. unfold notify_cb. rewrite Hble.
    pose proof (readings_emit debug interval (ble_print_count st) (ble_worked st)
                  (parse_data raw_data)) as Hr.
    destruct (emit _ _ _ _ _) as [evs pc]. exact Hr.
  - intros bad Hbad. split; intros st.
    + rewrite spp_iteration_invalid by by apply spp_invalid_true_iff.
      destruct (reconnect_threshold <? reconnect_count st); reflexivity.
    + unfold notify_cb.
      assert (ble_valid bad = false) as ->; [|reflexivity].
      unfold ble_valid. apply andb_false_iff.
      rewrite !bool_decide_eq_false. destruct Hbad as [Hshort|Hhd]; [left; lia|by right].
Qed.

Lemma meter_frame_decoding_witness :
  parse_data sample_frame !! "voltage"
    = Some (VFloat (float_of_int (be16 sample_frame 5) / 10.0)%float).
Proof.
  exact (proj1 (proj1 (meter_frame_decoding false 3 sample_frame eq_refl eq_refl))).
Defined.

(** The sample frame, decoded. *)
Example sample_frame_decoded :
  parse_data sample_frame !! "voltage" = Some (VFloat 230.5)
  ∧ parse_data sample_frame !! "current" = Some (VFloat 1.234)
  ∧ parse_data sample_frame !! "power" = Some (VFloat 284.4)
  ∧ parse_data sample_frame !! "kwh" = Some (VFloat 12.34)
  ∧ parse_data sample_frame !! "price" = Some (VFloat 0.6)
  ∧ parse_data sample_frame !! "freq" = Some (VFloat 50)
  ∧ parse_data sample_frame !! "coef" = Some (VFloat 0.987)
  ∧ parse_data sample_frame !! "temperature" = Some (VInt 25)
  ∧ parse_data sample_frame !! "h" = Some (VInt 13)
  ∧ parse_data sample_frame !! "m" = Some (VInt 37)
  ∧ parse_data sample_frame !! "s" = Some (VInt 42).
Proof. repeat split; reflexivity. Qed.

Section SerialPath.
Context (debug : bool) (interval : Z).

#[local] Abbreviation spp_iteration := (spp_iteration debug interval).
#[local] Abbreviation spp_loop := (spp_loop debug interval).
#[local] Abbreviation run_spp := (run_spp debug interval).
#[local] Abbreviation main_spp := (main_spp debug interval).

(** Reading twice on an empty answer at most halves the number of
    iterations, and every iteration of an all-invalid stream sees an
    invalid frame. *)
Lemma fetch_invalid (n : nat) (reads : list (list byte)) :
  (length reads ≤ n)%nat →
  Forall (λ r, spp_invalid r = true) reads →
  Forall (λ r, spp_invalid r = true) (fetch reads)
  ∧ (length reads ≤ 2 * length (fetch reads) + 1)%nat.
Proof.
  revert reads. induction n as [|n IH]; intros reads Hlen Hall.
  - destruct reads; [|cbn in Hlen; lia]. split; [constructor | cbn; lia].
  - destruct reads as [|r rest]; [split; [constructor | cbn; lia]|].
    apply Forall_cons in Hall as [Hr Hrest]. cbn in Hlen.
    destruct r as [|b r].
    + destruct rest as [|r' rest']; [split; [constructor | cbn; lia]|].
      apply Forall_cons in Hrest as [Hr' Hrest']. cbn in Hlen.
      destruct (IH rest' ltac:(lia) Hrest') as [Hf Hl].
      cbn [fetch length]. split; [by constructor | lia].
    + destruct (IH rest ltac:(lia) Hrest) as [Hf Hl].
      cbn [fetch length]. split; [by constructor | lia].
Qed.

(** From count [21 - n], the next [n] invalid frames are logged and the one
    after them raises. *)
Lemma spp_loop_gives_up (n : nat) (frames : list (list byte)) (st : spp_locals) :
  Forall (λ r, spp_invalid r = true) frames →
  reconnect_count st = 21 - Z.of_nat n →
  (n < length frames)%nat →
  spp_loop st frames
  = (retry_logs (reconnect_count st) (take n frames), SppRaised too_many_errors).
Proof.
  revert frames st. induction n as [|n IH]; intros frames st Hall Hrc Hlen;
    (destruct frames as [|f frames]; [cbn in Hlen; lia|]);
    apply Forall_cons in Hall as [Hf Hall];
    cbn [Meter.spp_loop]; rewrite (spp_iteration_invalid _ _ _ _ Hf).
  - replace (reconnect_threshold <? reconnect_count st) with true
      by (symmetry; apply Z.ltb_lt; unfold reconnect_threshold; lia).
    reflexivity.
  - replace (reconnect_threshold <? reconnect_count st) with false
      by (symmetry; apply Z.ltb_ge; unfold reconnect_threshold; lia).
    cbn in Hlen.
    rewrite IH; [|done|cbn; lia|lia].
    cbn [take reconnect_count]. unfold retry_logs. cbn [imap app].
    rewrite Z.add_0_r. do 2 f_equal.
    apply imap_ext. intros j raw _. cbn. do 2 f_equal. lia.
Qed.

(** [main] after a [run_spp] that raised SerialException. *)
Lemma main_spp_retries port rest evs e :
  run_spp port = (evs, SppRaised e) →
  isinstance e SerialException = true →
  main_spp (port :: rest)
  = (evs ++ [Log (MsgFailedToConnect e); Sleep 10] ++ (main_spp rest).1,
     (main_spp rest).2).
Proof.
  intros Hrun He. cbn [Meter.main_spp]. rewrite Hrun. unfold main_except. rewrite He.
  destruct (Meter.main_spp debug interval rest). reflexivity.
Qed.

(** C10. On a serial port that only delivers invalid reads (shorter than
    32 bytes, or without the header ff 55 01 01), [run_spp] does not retry
    for ever: it logs 21 invalid frames, the counter then exceeds the
    threshold 20, and the next invalid frame raises SerialException; this
    happens within 44 calls of [ser.read].  [main] catches it, pauses 10
    seconds and calls [run_spp] again, which reopens the port.  A valid
    frame sets the counter to 0; an invalid one raises exactly when the
    counter is above 20 and otherwise adds one to it. *)
Theorem serial_errors_are_bounded (reads : list (list byte)) (failure : option exn) :
  Forall (λ r, spp_invalid r = true) reads →
  (44 ≤ length reads)%nat →
  run_spp (Opened reads failure)
  = (SerialOpen :: retry_logs 0 (take 21 (fetch reads)), SppRaised too_many_errors)
  ∧ length (retry_logs 0 (take 21 (fetch reads))) = 21%nat
  ∧ (∀ reads' failure' more,
       main_spp (Opened reads failure :: Opened reads' failure' :: more)
       = ((SerialOpen :: retry_logs 0 (take 21 (fetch reads)))
            ++ [Log (MsgFailedToConnect too_many_errors); Sleep 10]
            ++ (main_spp (Opened reads' failure' :: more)).1,
          (main_spp (Opened reads' failure' :: more)).2)
       ∧ ∃ evs, (main_spp (Opened reads' failure' :: more)).1 = SerialOpen :: evs)
  ∧ (∀ st raw_data, spp_invalid raw_data = false →
       ∃ evs st', spp_iteration st raw_data = (evs, Continue st')
                  ∧ reconnect_count st' = 0)
  ∧ (∀ st raw_data, spp_invalid raw_data = true →
       (reconnect_count st ≤ 20 →
        ∃ evs st', spp_iteration st raw_data = (evs, Continue st')
                   ∧ reconnect_count st' = reconnect_count st + 1)
       ∧ (20 < reconnect_count st →
          spp_iteration st raw_data = ([], Raises too_many_errors))).
Proof.
  intros Hall Hlen.
  destruct (fetch_invalid _ reads (Nat.le_refl _) Hall) as [Hframes Hcount].
  assert (Hrun : run_spp (Opened reads failure)
    = (SerialOpen :: retry_logs 0 (take 21 (fetch reads)), SppRaised too_many_errors)).
  { unfold Meter.run_spp.
    rewrite (spp_loop_gives_up 21 (fetch reads)); [reflexivity|done|reflexivity|lia]. }
  split; [exact Hrun|]. split; [|split; [|split]].
  - unfold retry_logs. rewrite length_imap, length_take. lia.
  - intros reads' failure' more. split.
    + by apply main_spp_retries.
    + cbn [Meter.main_spp]. unfold Meter.run_spp at 1.
      destruct (Meter.spp_loop _ _ _ _) as [evs x].
      destruct x as [e|st'], failure' as [e'|];
        try (destruct (main_except _); [|by eexists];
             destruct (Meter.main_spp debug interval more); by eexists).
      by eexists.
  - intros st raw_data Hv. rewrite spp_iteration_valid by done. by do 2 eexists.
  - intros st raw_data Hv. rewrite spp_iteration_invalid by done. split; intros Hrc.
    + replace (reconnect_threshold <? reconnect_count st) with false
        by (symmetry; apply Z.ltb_ge; unfold reconnect_threshold; lia).
      by do 2 eexists.
    + replace (reconnect_threshold <? reconnect_count st) with true
        by (symmetry; apply Z.ltb_lt; unfold reconnect_threshold; lia).
      reflexivity.
Qed.

End SerialPath.

Lemma serial_errors_are_bounded_witness :
  run_spp false 3 (Opened (replicate 44 []) None)
  = (SerialOpen :: retry_logs 0 (take 21 (fetch (replicate 44 []))),
     SppRaised too_many_errors).
Proof.
  refine (proj1 (serial_errors_are_bounded false 3 (replicate 44 []) None _ _)).
  - apply Forall_replicate. reflexivity.
  - vm_compute. lia.
Defined.

(** Twenty-one short reads in a row are still tolerated, the counter
    standing at 21; the twenty-second raises. *)
Example twenty_one_invalid_reads_tolerated :
  (run_spp false 3 (Opened (replicate 21 [xff; x55]) None)).2
  = SppPending {| print_count := 0; reconnect_count := 21; worked := false |}.
Proof. reflexivity. Qed.

Example twenty_second_invalid_read_raises :
  (run_spp false 3 (Opened (replicate 22 [xff; x55]) None)).2 = SppRaised too_many_errors.
Proof. reflexivity. Qed.

(** A valid frame in between starts the count again. *)
Example valid_frame_restarts_count :
  (run_spp false 3
     (Opened (replicate 21 [xff; x55] ++ [sample_frame] ++ replicate 21 [xff; x55])
        None)).2
  = SppPending {| print_count := 1; reconnect_count := 21; worked := false |}.
Proof. reflexivity. Qed.

(** What the serial driver raises leaves [run_spp] as it is, and [main]
    handles it like the exception of [run_spp] itself. *)
Example driver_exceptions_leave_run_spp :
  run_spp false 3 (OpenRaises (Exn SerialException "could not open port"))
  = ([], SppRaised (Exn SerialException "could not open port"))
  ∧ (run_spp false 3 (Opened [sample_frame] (Some (Exn SerialException "read failed")))).2
    = SppRaised (Exn SerialException "read failed")
  ∧ main_spp false 3 [OpenRaises (Exn SerialException "could not open port")]
    = ([Log (MsgFailedToConnect (Exn SerialException "could not open port")); Sleep 10],
       MainRetrying).
Proof. repeat split. Qed.

End MeterSpec.

(** ** The watchdog *)

Module WatchDogSpec.
Import ThirdParty.
#[local] Open Scope float_scope.

Lemma loop_body_expired (self : WatchDog) (now : float) :
  expired (self, now) = true →
  loop_body self now = ([Report (now - ts self)], Exit (-1)).
Proof.
  unfold expired, loop_body. cbn [fst snd].
  intros [-> ->]%andb_true_iff. reflexivity.
Qed.

Lemma loop_body_not_expired (self : WatchDog) (now : float) :
  expired (self, now) = false →
  ∃ d, loop_body self now = ([Sleep d], Continue).
Proof.
  unfold expired, loop_body. cbn [fst snd].
  destruct (enable self); cbn [negb andb]; [intros ->|]; by eexists.
Qed.

(** While no pass finds the watchdog expired the loop keeps sleeping. *)
Lemma loop_quiet (observations : list (WatchDog * float)) :
  Forall (λ obs, expired obs = false) observations →
  (loop observations).2 = Looping
  ∧ reports (loop observations).1 = []
  ∧ length (loop observations).1 = length observations.
Proof.
  induction 1 as [|[self now] rest Hobs Hrest (IHs & IHr & IHl)]; [done|].
  cbn [loop].
  destruct (loop_body_not_expired self now Hobs) as [d ->].
  destruct (loop rest) as [evs x]. cbn in *. by rewrite IHl.
Qed.

Lemma loop_app_quiet (quiet rest : list (WatchDog * float)) :
  Forall (λ obs, expired obs = false) quiet →
  loop (quiet ++ rest) = ((loop quiet).1 ++ (loop rest).1, (loop rest).2).
Proof.
  induction 1 as [|[self now] quiet Hobs Hquiet IH].
  - cbn. by destruct (loop rest).
  - cbn [app loop].
    destruct (loop_body_not_expired self now Hobs) as [d ->].
    rewrite IH. destruct (loop quiet), (loop rest). reflexivity.
Qed.

(** C3. One pass of the watchdog loop: disabled, it sleeps half the
    timeout and rechecks; enabled with [timeout <= now - ts], it reports
    the timeout and exits the process with code -1; enabled otherwise, it
    sleeps the remaining [timeout - (now - ts)] and rechecks.  Over any
    run: the loop never returns; as long as no pass finds the watchdog
    expired it sleeps once per pass and reports nothing; the first pass
    that does yields exactly one report, which is the last effect of the
    loop, and the process is terminated (later passes never happen). *)
Theorem watchdog_loop_behaviour :
  (∀ self now, enable self = false →
     loop_body self now = ([Sleep (timeout self / 2)], Continue))
  ∧ (∀ self now, enable self = true → (timeout self <=? now - ts self) = true →
       loop_body self now = ([Report (now - ts self)], Exit (-1)))
  ∧ (∀ self now, enable self = true → (timeout self <=? now - ts self) = false →
       loop_body self now = ([Sleep (timeout self - (now - ts self))], Continue))
  ∧ (∀ observations, (loop observations).2 ≠ Returned)
  ∧ (∀ observations, Forall (λ obs, expired obs = false) observations →
       (loop observations).2 = Looping
       ∧ reports (loop observations).1 = []
       ∧ length (loop observations).1 = length observations)
  ∧ (∀ quiet self now rest,
       Forall (λ obs, expired obs = false) quiet →
       expired (self, now) = true →
       loop (quiet ++ (self, now) :: rest)
       = ((loop quiet).1 ++ [Report (now - ts self)], Exited (-1))
       ∧ reports (loop (quiet ++ (self, now) :: rest)).1 = [now - ts self]).
Proof.
  split; [|split; [|split; [|split; [|split]]]].
  - intros self now He. unfold loop_body. rewrite He. reflexivity.
  - intros self now He Hle. unfold loop_body. rewrite He, Hle. reflexivity.
  - intros self now He Hle. unfold loop_body. rewrite He, Hle. reflexivity.
  - induction observations as [|[self now] rest IH]; [discriminate|].
    cbn [loop]. unfold loop_body.
    destruct (negb (enable self)); [|destruct (timeout self <=? now - ts self)];
      cbn; try discriminate; by destruct (loop rest).
  - apply loop_quiet.
  - intros quiet self now rest Hquiet Hexp.
    assert (Hrun : loop (quiet ++ (self, now) :: rest)
                   = ((loop quiet).1 ++ [Report (now - ts self)], Exited (-1))).
    { rewrite loop_app_quiet by done. cbn [loop].
      rewrite (loop_body_expired self now Hexp). reflexivity. }
    split; [exact Hrun|]. rewrite Hrun. cbn [fst].
    unfold reports. rewrite omap_app. fold (reports (loop quiet).1).
    destruct (loop_quiet quiet Hquiet) as (_ & -> & _). reflexivity.
Qed.

(** A watchdog created at 1000 s: checked while disarmed, armed at 1010 s
    and never touched again; checked at 1060 s it sleeps the remaining
    70 s, checked at 1130 s it reports 120 s and exits. *)
Example watchdog_fires_once :
  loop [(new 1000, 1000); (on 1010 (new 1000), 1060); (on 1010 (new 1000), 1130);
        (on 1010 (new 1000), 1300)]
  = ([Sleep 60; Sleep 70; Report 120], Exited (-1)).
Proof. reflexivity. Qed.

(** A touch in time keeps it quiet. *)
Example watchdog_touched_in_time :
  loop [(on 1010 (new 1000), 1060); (touch 1100 (on 1010 (new 1000)), 1130);
        (off (touch 1100 (on 1010 (new 1000))), 1500)]
  = ([Sleep 70; Sleep 90; Sleep 60], Looping).
Proof. reflexivity. Qed.

End WatchDogSpec.

(** ** Runs of the BLE supervisor *)

Module BlitzTraceSpec.
Import Blitz BlitzTrace.

Section Supervisor.
Context (debug : bool) (min_interval : Z) (address : string) (mask : Z).

#[local] Abbreviation report := (report debug min_interval).
#[local] Abbreviation read_iteration := (read_iteration debug min_interval mask).
#[local] Abbreviation read_loop := (read_loop debug min_interval mask).
#[local] Abbreviation session := (session debug min_interval address mask).
#[local] Abbreviation supervise := (supervise debug min_interval address mask).

(** *** Which exceptions leave the supervisor *)

Lemma raised_escaped evs timeout_count e tr e' :
  raised evs timeout_count e = (tr, Escaped e') → is_Exception e' = false.
Proof.
  unfold raised. destruct (is_Exception e) eqn:He.
  - destruct (handler timeout_count e). discriminate.
  - intros [= _ <-]. exact He.
Qed.

Lemma session_escaped timeout_count s tr e :
  session timeout_count s = (tr, Escaped e) → is_Exception e = false.
Proof.
  unfold Blitz.session. destruct s as [e0| |e0|reads].
  - apply raised_escaped.
  - apply raised_escaped.
  - apply raised_escaped.
  - destruct (read_loop _ reads) as [evs x]. destruct x as [st'|e0|st'].
    + discriminate.
    + apply raised_escaped.
    + discriminate.
Qed.

(** X1. Whatever the transport answers, the only way out of the
    supervisor's loop is an exception that is not an [Exception]
    (SystemExit, KeyboardInterrupt, CancelledError): every [Exception],
    from the scan, the connect, a read or the decoder, is absorbed. *)
Theorem only_base_exceptions_escape
    (timeout_count : Z) (sessions : list session_input) (e : exn) :
  (supervise timeout_count sessions).2 = Escaped e → is_Exception e = false.
Proof.
  revert timeout_count.
  induction sessions as [|s rest IH]; intros timeout_count; [discriminate|].
  cbn [Blitz.supervise].
  destruct (session timeout_count s) as [evs x] eqn:Hs.
  destruct x as [tc'|e'|st'].
  - specialize (IH tc'). destruct (supervise tc' rest) as [evs' y]. exact IH.
  - intros [= ->]. by eapply session_escaped.
  - discriminate.
Qed.

(** *** Pauses *)

Lemma handler_ends_with_pause (timeout_count : Z) (e : exn) :
  ∃ evs d, (handler timeout_count e).1 = evs ++ [Sleep d] ∧ backoff_pause d.
Proof.
  unfold handler, backoff_pause.
  destruct (isinstance e BleakDeviceNotFoundError);
    [by exists [WatchDogOff; Log MsgNotFound], 60%float; auto|].
  destruct (str_in "No powered Bluetooth adapters found" (exn_str e));
    [by exists [WatchDogOff; Log MsgNoAdapters], 60%float; auto|].
  destruct (str_in "[org.bluez.Error.InProgress]" (exn_str e));
    [by exists [WatchDogOff; Log MsgDeviceBusy], 20%float; auto|].
  destruct (isinstance e TimeoutError); [destruct (10 <? timeout_count + 1)|].
  - exists [WatchDogOff; Log (MsgFailedConnecting e); Log MsgTooManyTimeouts; Sleep 60],
      3%float. auto.
  - exists [WatchDogOff; Log (MsgFailedConnecting e)], 3%float. auto.
  - exists [WatchDogOff; Log (MsgFailedConnecting e)], 3%float. auto.
Qed.

Lemma raised_ends_with_pause evs timeout_count e tr tc' :
  raised evs timeout_count e = (tr, Next tc') →
  ∃ tr' d, tr = tr' ++ [Sleep d] ∧ backoff_pause d.
Proof.
  unfold raised. destruct (is_Exception e); [|discriminate].
  destruct (handler_ends_with_pause timeout_count e) as (evs' & d & Hh & Hd).
  destruct (handler timeout_count e) as [hevs tc'']. cbn [fst] in Hh. subst hevs.
  intros [= <- _]. exists (evs ++ evs'), d. by rewrite app_assoc.
Qed.

(** X2. A pass of the outer loop that ends (by a disconnect or by any
    caught exception) always ends with a pause of 3, 20 or 60 seconds: the
    supervisor never starts its next attempt without waiting. *)
Theorem session_ends_with_pause
    (timeout_count : Z) (s : session_input) (tr : list event) (timeout_count' : Z) :
  session timeout_count s = (tr, Next timeout_count') →
  ∃ tr' d, tr = tr' ++ [Sleep d] ∧ backoff_pause d.
Proof.
  unfold Blitz.session. destruct s as [e| |e|reads].
  - apply raised_ends_with_pause.
  - apply raised_ends_with_pause.
  - apply raised_ends_with_pause.
  - destruct (read_loop _ reads) as [evs x]. destruct x as [st'|e|st'].
    + intros [= <- _].
      exists (connected_prefix ++ evs ++ [Log MsgDisconnected]), 3%float.
      split; [|by left]. unfold connected_prefix. cbn. by rewrite <- app_assoc.
    + apply raised_ends_with_pause.
    + discriminate.
Qed.

(** *** Properties of every event of a run *)

Section EveryEvent.
Context (P : event → Prop).
Context (P_log : ∀ m, P (Log m)) (P_on : P WatchDogOn) (P_off : P WatchDogOff).
Context (P_3 : P (Sleep 3)) (P_20 : P (Sleep 20)) (P_60 : P (Sleep 60)).
Context (P_read : ∀ st i, Forall P (read_iteration st i).1).

Lemma read_loop_every st reads : Forall P (read_loop st reads).1.
Proof using P_read.
  revert st. induction reads as [|i rest IH]; intros st; [constructor|].
  cbn [Blitz.read_loop]. pose proof (P_read st i) as Hi.
  destruct (read_iteration st i) as [evs c]. cbn [fst] in Hi.
  destruct c as [st'|st'|e]; try exact Hi.
  specialize (IH st'). destruct (read_loop st' rest) as [evs' x].
  apply Forall_app. by split.
Qed.

Lemma handler_every timeout_count e : Forall P (handler timeout_count e).1.
Proof using P_log P_off P_3 P_20 P_60.
  unfold handler.
  destruct (isinstance e BleakDeviceNotFoundError),
    (str_in "No powered Bluetooth adapters found" (exn_str e)),
    (str_in "[org.bluez.Error.InProgress]" (exn_str e)),
    (isinstance e TimeoutError), (10 <? timeout_count + 1);
    cbn; repeat constructor; auto.
Qed.

Lemma raised_every evs timeout_count e :
  Forall P evs → Forall P (raised evs timeout_count e).1.
Proof using P_log P_off P_3 P_20 P_60.
  intros Hevs. unfold raised. destruct (is_Exception e); [|exact Hevs].
  pose proof (handler_every timeout_count e) as Hh.
  destruct (handler timeout_count e). apply Forall_app. by split.
Qed.

Lemma session_every timeout_count s : Forall P (session timeout_count s).1.
Proof using P_log P_on P_off P_3 P_20 P_60 P_read.
  unfold Blitz.session. destruct s as [e| |e|reads].
  - apply raised_every. repeat constructor; auto.
  - apply raised_every. repeat constructor; auto.
  - apply raised_every. repeat constructor; auto.
  - pose proof (read_loop_every {| timeout_count := timeout_count; worked := false |} reads)
      as Hl.
    destruct (read_loop _ reads) as [evs x]. cbn [fst] in Hl.
    assert (Hpre : Forall P (([Log MsgWillConnect; Log MsgScanning; WatchDogOn]
                     ++ [WatchDogOff; Log MsgFound; WatchDogOn])
                     ++ [WatchDogOff; Log MsgConnected] ++ evs)).
    { repeat (apply Forall_app; split); try exact Hl; repeat constructor; auto. }
    destruct x as [st'|e|st'].
    + apply Forall_app. split; [exact Hpre | repeat constructor; auto].
    + by apply raised_every.
    + exact Hpre.
Qed.

Lemma supervise_every timeout_count sessions :
  Forall P (supervise timeout_count sessions).1.
Proof using P_log P_on P_off P_3 P_20 P_60 P_read.
  revert timeout_count.
  induction sessions as [|s rest IH]; intros timeout_count; [constructor|].
  cbn [Blitz.supervise]. pose proof (session_every timeout_count s) as Hs.
  destruct (session timeout_count s) as [evs x]. cbn [fst] in Hs.
  destruct x as [tc'|e|st']; try exact Hs.
  specialize (IH tc'). destruct (supervise tc' rest). apply Forall_app. by split.
Qed.

End EveryEvent.

Ltac each_event :=
  repeat (apply List.Forall_cons); try apply List.Forall_nil; eauto;
  try by (right; left; eexists).

Lemma report_events st i data :
  ∃ logs pause,
    (report st i data).1 = logs ++ pause
    ∧ Forall (λ ev, (∃ m, ev = Log m) ∨ ev = DebugPrint data ∨ ev = InfluxPrint data) logs
    ∧ (pause = []
       ∨ ∃ d, pause = [Sleep d] ∧ (0 <? d)%float = true).
Proof.
  unfold Blitz.report. destruct (status_of data) as [status|].
  - destruct (influx_print_raises i) as [e|]; cbv zeta.
    { eexists _, []. split; [symmetry; apply app_nil_r|]. split; [|by left].
      destruct (negb (worked st)), (negb _ && negb _ && negb _ && negb _),
        (is_end_of_battery status), debug; cbn; each_event. }
    set (sleep_time := (float_of_int min_interval - (end_time i - start_time i))%float).
    destruct (0 <? sleep_time)%float eqn:Hpos.
    + eexists _, [Sleep sleep_time]. split; [by rewrite !app_assoc|]. split.
      * destruct (negb (worked st)), (negb _ && negb _ && negb _ && negb _),
          (is_end_of_battery status), debug; cbn; each_event.
      * right. by exists sleep_time.
    + eexists _, []. split; [symmetry; apply app_nil_r|]. split; [|by left].
      destruct (negb (worked st)), (negb _ && negb _ && negb _ && negb _),
        (is_end_of_battery status), debug; cbn; each_event.
  - exists [], []. split; [reflexivity|]. split; [constructor|by left].
Qed.

(** What the events of one pass through the read loop can be. *)
Lemma read_iteration_events st i :
  Forall (λ ev,
            (∃ m, ev = Log m)
            ∨ (∃ d, ev = Sleep d ∧ (0 <? d)%float = true)
            ∨ (∃ data, decoded mask data ∧ (ev = DebugPrint data ∨ ev = InfluxPrint data)))
         (read_iteration st i).1.
Proof.
  unfold Blitz.read_iteration.
  destruct (negb (is_connected i)); [constructor|].
  destruct (read_gatt_char i) as [e|raw_data].
  - destruct (negb (is_Exception e)); [constructor|].
    destruct (str_in "Not connected" (exn_str e)); [constructor|].
    each_event.
  - destruct (bad_frame raw_data) eqn:Hframe.
    + destruct (bool_decide (raw_data = replicate 17 x00));
        each_event.
    + destruct (parse_data raw_data mask) as [data|e] eqn:Hparse; [|constructor].
      destruct (report_events st i data) as (logs & pause & -> & Hlogs & Hpause).
      apply Forall_app. split.
      * eapply Forall_impl; [exact Hlogs|]. intros ev [Hm|Hd]; [by left|].
        right. right. exists data. split; [by exists raw_data|exact Hd].
      * destruct Hpause as [->|(d & -> & Hd)]; [constructor|].
        each_event.
Qed.

(** X3. Every [asyncio.sleep] of the supervisor's loop, in any run, gets a
    strictly positive duration: the fixed pauses are 3, 20, 30 and 60
    seconds, and the wait for the next report is skipped unless
    [min_interval - (now - start_time)] is greater than 0. *)
Theorem sleeps_are_positive (timeout_count : Z) (sessions : list session_input) :
  Forall (λ d, (0 <? d)%float = true) (sleeps (supervise timeout_count sessions).1).
Proof.
  pose proof (supervise_every
    (λ ev, match ev with Sleep d => (0 <? d)%float = true | _ => True end)) as H.
  assert (Hall : Forall (λ ev, match ev with Sleep d => (0 <? d)%float = true | _ => True end)
                   (supervise timeout_count sessions).1).
  { apply H; try done.
    intros st i. eapply Forall_impl; [apply read_iteration_events|].
    intros ev [[m ->]|[(d & -> & Hd)|(data & _ & [-> | ->])]]; done. }
  clear H. induction Hall as [|ev evs Hev Hevs IH]; [constructor|].
  destruct ev; cbn; try exact IH. by constructor.
Qed.

(** X4. Every reading the supervisor hands to the sink, in any run, is a
    dictionary [parse_data] returned for a payload of 17 bytes with marker
    0x12 and trailer 0x23, decoded with the task's mask: nothing is printed
    from an invalid, an undecodable or a stale frame. *)
Theorem readings_are_decoded_frames (timeout_count : Z) (sessions : list session_input) :
  Forall (decoded mask) (readings (supervise timeout_count sessions).1).
Proof.
  pose proof (supervise_every
    (λ ev, match ev with InfluxPrint data => decoded mask data | _ => True end)) as H.
  assert (Hall : Forall (λ ev, match ev with
                               | InfluxPrint data => decoded mask data
                               | _ => True end)
                   (supervise timeout_count sessions).1).
  { apply H; try done.
    intros st i. eapply Forall_impl; [apply read_iteration_events|].
    intros ev [[m ->]|[(d & -> & Hd)|(data & Hdec & [-> | ->])]]; done. }
  clear H. induction Hall as [|ev evs Hev Hevs IH]; [constructor|].
  destruct ev; cbn; try exact IH. by constructor.
Qed.

(** *** The watchdog calls of a run *)

Lemma armed_after_app a l1 l2 :
  armed_after a (l1 ++ l2) = armed_after (armed_after a l1) l2.
Proof.
  revert a. induction l1 as [|ev l1 IH]; intros a; [reflexivity|].
  destruct ev; cbn; apply IH.
Qed.

Lemma calm_while_armed_app a l1 l2 :
  calm_while_armed a (l1 ++ l2)
  = calm_while_armed a l1 && calm_while_armed (armed_after a l1) l2.
Proof.
  revert a. induction l1 as [|ev l1 IH]; intros a; [reflexivity|].
  destruct ev; cbn; rewrite ?IH, ?andb_assoc; reflexivity.
Qed.

(** Events without watchdog calls keep the watchdog as it was, and are
    calm when it was off. *)
Lemma no_watchdog_calls evs :
  Forall (λ ev, ev ≠ WatchDogOn ∧ ev ≠ WatchDogOff) evs →
  (∀ a, armed_after a evs = a) ∧ calm_while_armed false evs = true.
Proof.
  induction 1 as [|ev evs [Hon Hoff] Hevs [IHa IHc]]; [done|].
  destruct ev; try done; cbn; auto.
Qed.

Lemma read_loop_no_watchdog_calls st reads :
  Forall (λ ev, ev ≠ WatchDogOn ∧ ev ≠ WatchDogOff) (read_loop st reads).1.
Proof.
  apply read_loop_every. intros st' i.
  eapply Forall_impl; [apply read_iteration_events|].
  intros ev [[m ->]|[(d & -> & Hd)|(data & _ & [-> | ->])]]; done.
Qed.

Lemma handler_disarms a timeout_count e :
  calm_while_armed a (handler timeout_count e).1 = true
  ∧ armed_after a (handler timeout_count e).1 = false.
Proof.
  unfold handler.
  destruct (isinstance e BleakDeviceNotFoundError),
    (str_in "No powered Bluetooth adapters found" (exn_str e)),
    (str_in "[org.bluez.Error.InProgress]" (exn_str e)),
    (isinstance e TimeoutError), (10 <? timeout_count + 1); done.
Qed.

Lemma raised_disarms evs timeout_count e :
  calm_while_armed false evs = true →
  calm_while_armed false (raised evs timeout_count e).1 = true
  ∧ ((∀ e', (raised evs timeout_count e).2 ≠ Escaped e') →
     armed_after false (raised evs timeout_count e).1 = false).
Proof.
  intros Hevs. unfold raised. destruct (is_Exception e).
  - destruct (handler_disarms (armed_after false evs) timeout_count e) as [Hc Ha].
    destruct (handler timeout_count e) as [hevs tc'']. cbn [fst snd] in *.
    rewrite calm_while_armed_app, armed_after_app, Hevs, Hc, Ha. done.
  - split; [exact Hevs|]. intros Hne. by destruct (Hne e).
Qed.

Lemma session_disarms timeout_count s :
  calm_while_armed false (session timeout_count s).1 = true
  ∧ ((∀ e, (session timeout_count s).2 ≠ Escaped e) →
     armed_after false (session timeout_count s).1 = false).
Proof.
  unfold Blitz.session. destruct s as [e| |e|reads].
  - by apply raised_disarms.
  - by apply raised_disarms.
  - by apply raised_disarms.
  - pose proof (read_loop_no_watchdog_calls
                  {| timeout_count := timeout_count; worked := false |} reads) as Hl.
    apply no_watchdog_calls in Hl as [Hla Hlc].
    destruct (read_loop _ reads) as [evs x]. cbn [fst] in Hla, Hlc.
    assert (Hpre : calm_while_armed false
                     (([Log MsgWillConnect; Log MsgScanning; WatchDogOn]
                       ++ [WatchDogOff; Log MsgFound; WatchDogOn])
                      ++ [WatchDogOff; Log MsgConnected] ++ evs) = true
                   ∧ armed_after false
                       (([Log MsgWillConnect; Log MsgScanning; WatchDogOn]
                         ++ [WatchDogOff; Log MsgFound; WatchDogOn])
                        ++ [WatchDogOff; Log MsgConnected] ++ evs) = false).
    { cbn. by rewrite Hla, Hlc. }
    destruct Hpre as [Hpc Hpa].
    destruct x as [st'|e|st'].
    + cbn [fst snd]. split.
      * by rewrite calm_while_armed_app, Hpc, Hpa.
      * intros _.
        by rewrite (armed_after_app false _ [Log MsgDisconnected; Sleep 3%float]), Hpa.
    + by apply raised_disarms.
    + done.
Qed.

(** X5. In any run of the supervisor, the task never sleeps and never
    prints while it has the watchdog armed: [watch_dog.on()] only brackets
    the scan and the connect, and every way out of them, an exception
    included, calls [watch_dog.off()] before the pause.  Unless an
    exception escaped, the run leaves the watchdog disarmed. *)
Theorem watchdog_only_guards_scan_and_connect
    (timeout_count : Z) (sessions : list session_input) :
  calm_while_armed false (supervise timeout_count sessions).1 = true
  ∧ ((∀ e, (supervise timeout_count sessions).2 ≠ Escaped e) →
     armed_after false (supervise timeout_count sessions).1 = false).
Proof.
  revert timeout_count.
  induction sessions as [|s rest IH]; intros timeout_count; [done|].
  cbn [Blitz.supervise].
  destruct (session_disarms timeout_count s) as [Hc Ha].
  destruct (session timeout_count s) as [evs x]. cbn [fst snd] in Hc, Ha.
  destruct x as [tc'|e|st'].
  - destruct (IH tc') as [IHc IHa]. destruct (supervise tc' rest) as [evs' y].
    cbn [fst snd] in *.
    rewrite calm_while_armed_app, armed_after_app, Hc, Ha by done. done.
  - split; [exact Hc|]. intros Hne. by destruct (Hne e).
  - split; [exact Hc|]. intros _. by apply Ha.
Qed.

End Supervisor.

Lemma session_ends_with_pause_witness :
  ∃ tr' d,
    (session false 120 "" 0xff 0 FindNone).1 = tr' ++ [Sleep d] ∧ backoff_pause d.
Proof.
  exact (session_ends_with_pause false 120 "" 0xff 0 FindNone _ 0 eq_refl).
Defined.

Lemma only_base_exceptions_escape_witness :
  is_Exception (Exn BaseExceptionOther "cancelled") = false.
Proof.
  apply (only_base_exceptions_escape false 120 "" 0xff 0
           [FindNone; EnterRaises (Exn BaseExceptionOther "cancelled"); FindNone]).
  reflexivity.
Defined.

End BlitzTraceSpec.

(** ** The status mask *)

Module BlitzMaskSpec.
Import Blitz BlitzSpec.

(** A bit the mask clears is clear in the masked status. *)
Lemma has_bits_masked_off (b m k : Z) :
  has_bits m k = false → has_bits (Z.land b m) k = false.
Proof.
  unfold has_bits. rewrite !negb_false_iff, !Z.eqb_eq. intros Hm.
  by rewrite <- Z.land_assoc, Hm, Z.land_0_r.
Qed.

Lemma has_bits_low (b m k : Z) :
  Z.land 0xf1 k = k →
  has_bits (Z.land b (Z.land m 0xf1)) k = has_bits (Z.land b m) k.
Proof.
  intros Hk. unfold has_bits. do 2 f_equal.
  rewrite <- !Z.land_assoc. by rewrite Hk.
Qed.

Lemma parse_low_bits (b : byte) (mask : Z) :
  parse (Z.land (byte_val b) (Z.land mask 0xf1)) = parse (Z.land (byte_val b) mask).
Proof.
  rewrite !parse_eq by apply land_byte_range.
  by rewrite !has_bits_low.
Qed.

(** X6. Only the five status bits of the mask matter: [parse_data] gives
    the same result, value or exception, for [mask] and for
    [mask & 0xf1], whatever integer the mask is (wider than a byte or
    negative included) and whatever the payload. *)
Theorem mask_acts_through_status_bits (raw_data : list byte) (mask : Z) :
  parse_data raw_data (Z.land mask 0xf1) = parse_data raw_data mask.
Proof.
  destruct (decide (length raw_data = 17%nat)) as [Hlen|Hlen].
  - explode_frame raw_data Hlen. unfold parse_data.
    cbn [length bool_decide assert_ mbind result_bind getitem lookup list_lookup].
    by rewrite parse_low_bits.
  - by rewrite !parse_data_wrong_length.
Qed.

(** X7. A mask that clears the HTU21D bit or the SHT4X bit makes every
    17-byte payload decodable: the exclusion assertion cannot fail, so
    [parse_data] returns a dictionary whatever the device reports. *)
Theorem masking_a_temperature_bit_avoids_the_assertion
    (raw_data : list byte) (mask : Z) :
  has_bits mask 0x80 = false ∨ has_bits mask 0x10 = false →
  length raw_data = 17%nat →
  ∃ ans, parse_data raw_data mask = Ok ans.
Proof.
  intros Hmask Hlen.
  destruct (parse_data_cases raw_data mask Hlen) as (b1 & _ & Hcases).
  cbv zeta in Hcases.
  assert (Hexcl : has_bits (Z.land (byte_val b1) mask) 0x80
                  && has_bits (Z.land (byte_val b1) mask) 0x10 = false).
  { apply andb_false_iff.
    destruct Hmask as [Hm|Hm]; [left|right]; by apply has_bits_masked_off. }
  rewrite Hexcl in Hcases. destruct Hcases as (ans & Hok & _). by exists ans.
Qed.

Lemma masking_a_temperature_bit_avoids_the_assertion_witness :
  ∃ ans, parse_data (sample_frame xf0) 0x7f = Ok ans.
Proof.
  apply masking_a_temperature_bit_avoids_the_assertion; [by left | reflexivity].
Defined.

(** X8. A sensor whose bit the mask clears is never reported: in every
    dictionary [parse_data] returns, "pressure" and "temperature_aux" are
    missing when the mask lacks 0x40, "light" when it lacks 0x20, and
    "temperature" and "humidity" when it lacks both 0x80 and 0x10. *)
Theorem masked_sensors_are_not_reported
    (raw_data : list byte) (mask : Z) (ans : gmap string pyval) :
  parse_data raw_data mask = Ok ans →
  (has_bits mask 0x40 = false →
   ans !! "pressure" = None ∧ ans !! "temperature_aux" = None)
  ∧ (has_bits mask 0x20 = false → ans !! "light" = None)
  ∧ (has_bits mask 0x80 = false → has_bits mask 0x10 = false →
     ans !! "temperature" = None ∧ ans !! "humidity" = None).
Proof.
  intros Hok.
  destruct (parse_data_ok_inv _ _ _ Hok) as (b1 & Hlen & Hb1 & Hexcl).
  destruct (parse_data_cases raw_data mask Hlen) as (b & Hb & Hcases).
  assert (b = b1) as -> by congruence.
  cbv zeta in Hcases. rewrite Hexcl in Hcases.
  destruct Hcases as (ans' & Hok' & _ & _ & Ht & Hh & Hp & Ha & Hl).
  assert (ans' = ans) as -> by congruence.
  rewrite Ht, Hh, Hp, Ha, Hl. split; [|split].
  - intros Hm. by rewrite has_bits_masked_off.
  - intros Hm. by rewrite has_bits_masked_off.
  - intros Hm1 Hm2. by rewrite !has_bits_masked_off.
Qed.

Lemma masked_sensors_are_not_reported_witness :
  default ∅ (returned (parse_data (sample_frame xf0) 0x8f)) !! "light" = None.
Proof.
  refine (proj1 (proj2 (masked_sensors_are_not_reported (sample_frame xf0) 0x8f _ _)) _);
    reflexivity.
Defined.

End BlitzMaskSpec.

(** ** The printers on decoded frames *)

Module BlitzOutSpec.
Import Blitz BlitzSpec BlitzOut.

Lemma fmap_returned_Some (r : result float) :
  (∃ v, r = Ok v) → ∃ v, VFloat <$> returned r = Some (VFloat v).
Proof. intros [v ->]. by exists v. Qed.

Lemma decoded_entries (raw_data : list byte) (mask : Z) (ans : gmap string pyval) :
  parse_data raw_data mask = Ok ans → ∃ s, entries ans s.
Proof.
  intros Hok.
  destruct (parse_data_ok_inv _ _ _ Hok) as (b1 & Hlen & Hb1 & Hexcl).
  destruct (parse_data_cases raw_data mask Hlen) as (b & Hb & Hcases).
  assert (b = b1) as -> by congruence.
  cbv zeta in Hcases. rewrite Hexcl in Hcases.
  destruct Hcases as (ans' & Hok' & Hst & Hv & Ht & Hh & Hp & Ha & Hl).
  assert (ans' = ans) as -> by congruence.
  pose proof (fmap_returned_Some _
    (supply_voltage_returns _ (slice_length 2 4 raw_data ltac:(lia)))).
  pose proof (fmap_returned_Some _
    (sht4x_temperature_returns _ (slice_length 4 6 raw_data ltac:(lia)))).
  pose proof (fmap_returned_Some _
    (sht4x_humidity_returns _ (slice_length 6 8 raw_data ltac:(lia)))).
  pose proof (fmap_returned_Some _
    (htu21d_temperature_returns _ (slice_length 4 6 raw_data ltac:(lia)))).
  pose proof (fmap_returned_Some _
    (htu21d_humidity_returns _ (slice_length 6 8 raw_data ltac:(lia)))).
  pose proof (fmap_returned_Some _
    (bmp280_pressure_returns _ (slice_length 8 12 raw_data ltac:(lia)))).
  pose proof (fmap_returned_Some _
    (bmp280_temperature_returns _ (slice_length 12 14 raw_data ltac:(lia)))).
  pose proof (fmap_returned_Some _
    (gy302_light_returns _ (slice_length 14 16 raw_data ltac:(lia)))).
  exists {| is_htu21d_online := has_bits (Z.land (byte_val b1) mask) 0x80;
            is_bmp280_online := has_bits (Z.land (byte_val b1) mask) 0x40;
            is_gy302_online := has_bits (Z.land (byte_val b1) mask) 0x20;
            is_sht4x_online := has_bits (Z.land (byte_val b1) mask) 0x10;
            is_end_of_battery := has_bits (Z.land (byte_val b1) mask) 0x01 |}.
  constructor; cbn [is_htu21d_online is_sht4x_online is_bmp280_online
                    is_gy302_online is_end_of_battery].
  - exact Hexcl.
  - exact Hst.
  - by rewrite Hv.
  - rewrite Ht. destruct (has_bits _ 16), (has_bits _ 128); done.
  - rewrite Hh. destruct (has_bits _ 16), (has_bits _ 128); done.
  - rewrite Hp. by destruct (has_bits _ 64).
  - rewrite Ha. by destruct (has_bits _ 64).
  - rewrite Hl. by destruct (has_bits _ 32).
Qed.

Ltac use_entries H :=
  destruct H as [Hexcl Hst [v Hv] Ht Hh Hp Ha Hl];
  match goal with s : BLESensorStatus |- _ =>
    destruct s as [[|] [|] [|] [|] ?] end;
  cbn [is_htu21d_online is_sht4x_online is_bmp280_online is_gy302_online
       andb orb] in *;
  try discriminate;
  repeat match goal with H : ∃ _, _ |- _ => destruct H as [? H] end.

(** X9. [debug_print] never fails on a dictionary [parse_data] returned:
    every key it reads is there.  Its line shows the status and the
    supply voltage, then one segment for the temperature/humidity
    sub-sensor that is online, one for the BMP280 and one for the GY302,
    each only when that sensor is online. *)
Theorem debug_print_on_decoded
    (raw_data : list byte) (mask : Z) (ans : gmap string pyval) :
  parse_data raw_data mask = Ok ans →
  ∃ s segments,
    ans !! "status" = Some (VStatus s)
    ∧ debug_print ans = Ok segments
    ∧ map fst segments
      = ["status"; "Supply voltage"]
          ++ (if is_sht4x_online s then ["SHT4X"]
              else if is_htu21d_online s then ["HTU21D"] else [])
          ++ (if is_bmp280_online s then ["BMP280"] else [])
          ++ (if is_gy302_online s then ["GY302"] else []).
Proof.
  intros Hok. destruct (decoded_entries _ _ _ Hok) as [s Hs].
  exists s. pose proof (e_status _ _ Hs) as Hstatus.
  use_entries Hs.
  all: eexists; split; [exact Hstatus|].
  all: unfold debug_print, status, item;
    repeat match goal with H : _ !! _ = _ |- _ => rewrite H end;
    cbn; split; reflexivity.
Qed.

Lemma debug_print_on_decoded_witness :
  ∃ s segments,
    default ∅ (returned (parse_data (sample_frame xe0) 0xff)) !! "status"
      = Some (VStatus s)
    ∧ debug_print (default ∅ (returned (parse_data (sample_frame xe0) 0xff)))
      = Ok segments
    ∧ map fst segments
      = ["status"; "Supply voltage"]
          ++ (if is_sht4x_online s then ["SHT4X"]
              else if is_htu21d_online s then ["HTU21D"] else [])
          ++ (if is_bmp280_online s then ["BMP280"] else [])
          ++ (if is_gy302_online s then ["GY302"] else []).
Proof.
  apply (debug_print_on_decoded (sample_frame xe0) 0xff). reflexivity.
Defined.

Section Printer.
Context (altitude : option float).
Context (normalize_pressure : float → float → result float).
Context (dew_point : float → float → float → result float).

#[local] Abbreviation influx_print :=
  (influx_print altitude normalize_pressure dew_point).

(** X10. On a dictionary [parse_data] returned, [influx_print] finds every
    key it reads: it can only stop on an exception of [normalize_pressure]
    or [dew_point].  It prints the supply voltage first; no field name is
    printed twice; and when it completes, the fields are: supply_voltage;
    temperature and humidity if a temperature/humidity sub-sensor is
    online; for an online BMP280 the pressure, the normalized pressure if
    an altitude is set and not 0, and the BMP280 temperature, named
    temperature_aux next to a temperature/humidity sub-sensor and
    temperature without one; dew_point exactly when both a
    temperature/humidity sub-sensor and the BMP280 are online; light for
    an online GY302. *)
Theorem influx_print_on_decoded
    (raw_data : list byte) (mask : Z) (ans : gmap string pyval) :
  parse_data raw_data mask = Ok ans →
  ∃ s v,
    ans !! "status" = Some (VStatus s)
    ∧ head (influx_print ans).1 = Some [("supply_voltage", VFloat v)]
    ∧ NoDup (field_names (influx_print ans).1)
    ∧ (∀ e, (influx_print ans).2 = Raise e →
         (∃ p a, normalize_pressure p a = Raise e)
         ∨ (∃ t p h, dew_point t p h = Raise e))
    ∧ ((influx_print ans).2 = Ok tt →
       field_names (influx_print ans).1
       = ["supply_voltage"]
           ++ (if is_htu21d_online s || is_sht4x_online s
               then ["temperature"; "humidity"] else [])
           ++ (if is_bmp280_online s
               then ["pressure"]
                      ++ (if truthy altitude then ["pressure_normalized"] else [])
                      ++ [if is_htu21d_online s || is_sht4x_online s
                          then "temperature_aux" else "temperature"]
               else [])
           ++ (if (is_htu21d_online s || is_sht4x_online s) && is_bmp280_online s
               then ["dew_point"] else [])
           ++ (if is_gy302_online s then ["light"] else [])).
Proof.
  intros Hok. destruct (decoded_entries _ _ _ Hok) as [s Hs].
  exists s. pose proof (e_status _ _ Hs) as Hstatus.
  use_entries Hs.
  all: eexists; split; [exact Hstatus|].
  all: unfold BlitzOut.influx_print, status, item;
    repeat match goal with H : _ !! _ = _ |- _ => rewrite H end;
    cbn -[truthy].
  all: destruct (truthy altitude); cbn.
  all: repeat match goal with
       | |- context [normalize_pressure ?p ?a] =>
           let E := fresh "En" in destruct (normalize_pressure p a) eqn:E; cbn
       | |- context [dew_point ?t ?p ?h] =>
           let E := fresh "Ed" in destruct (dew_point t p h) eqn:E; cbn
       end.
  all: split; [reflexivity|].
  all: split; [by apply (bool_decide_unpack _)|].
  all: split; [intros e' [= <-]; eauto 6 | intros [=]; try reflexivity].
Qed.

End Printer.

Lemma influx_print_on_decoded_witness :
  ∃ s v,
    default ∅ (returned (parse_data (sample_frame xe0) 0xff)) !! "status"
      = Some (VStatus s)
    ∧ head (BlitzOut.influx_print (Some 50%float) (λ p a, Ok (p - a)%float)
              (λ t p h, Ok t)
              (default ∅ (returned (parse_data (sample_frame xe0) 0xff)))).1
      = Some [("supply_voltage", VFloat v)].
Proof.
  destruct (influx_print_on_decoded (Some 50%float) (λ p a, Ok (p - a)%float)
              (λ t p h, Ok t) (sample_frame xe0) 0xff _ eq_refl)
    as (s & v & Hs & Hhead & _).
  by exists s, v.
Defined.

(** The lines printed for a frame with HTU21D, BMP280 and GY302 online,
    at 50 m. *)
Example influx_print_sample :
  field_names (BlitzOut.influx_print (Some 50%float) (λ p a, Ok (p - a)%float)
                 (λ t p h, Ok t)
                 (default ∅ (returned (parse_data (sample_frame xe0) 0xff)))).1
  = ["supply_voltage"; "temperature"; "humidity"; "pressure"; "pressure_normalized";
     "temperature_aux"; "dew_point"; "light"].
Proof. reflexivity. Qed.

(** With only the BMP280 online its temperature is printed as
    "temperature". *)
Example influx_print_bmp280_only :
  field_names (BlitzOut.influx_print None (λ p a, Ok (p - a)%float) (λ t p h, Ok t)
                 (default ∅ (returned (parse_data (sample_frame x40) 0xff)))).1
  = ["supply_voltage"; "pressure"; "temperature"].
Proof. reflexivity. Qed.

End BlitzOutSpec.

(** ** The meter decoder beyond 36-byte frames, and the sampling *)

Module MeterOutSpec.
Import Meter MeterSpec MeterOut.

Lemma slice_app_short (a b : nat) (l extra : list byte) :
  (b ≤ length l)%nat → slice a b (l ++ extra) = slice a b l.
Proof.
  intros Hb. unfold slice.
  destruct (decide (a ≤ length l)%nat) as [Ha|Ha].
  - rewrite drop_app_le by done. rewrite take_app_le; [done|].
    rewrite length_drop. lia.
  - replace (b - a)%nat with 0%nat by lia. by rewrite !take_0.
Qed.

(** X11. [parse_data] reads bytes 5 to 29 only: anything after the first
    30 bytes does not change the result.  So the serial path, which accepts
    every read of at least 32 bytes that starts with ff 55 01 01, decodes a
    short read of 32 to 35 bytes exactly like the full frame it is the
    beginning of, whereas the notification path rejects it. *)
Theorem short_serial_frames_decode_like_full_ones (raw_data extra : list byte) :
  (32 ≤ length raw_data)%nat →
  slice 0 4 raw_data = header →
  spp_invalid raw_data = false
  ∧ parse_data (raw_data ++ extra) = parse_data raw_data
  ∧ (length raw_data ≠ 36%nat → ble_valid raw_data = false).
Proof.
  intros Hlen Hhdr. split; [|split].
  - unfold spp_invalid. rewrite Hhdr, bool_decide_eq_true_2 by done.
    by replace (length raw_data <? 32)%nat with false by (symmetry; apply Nat.ltb_ge; lia).
  - unfold parse_data. by rewrite !slice_app_short by lia.
  - intros Hne. unfold ble_valid. by rewrite bool_decide_eq_false_2.
Qed.

Lemma short_serial_frames_decode_like_full_ones_witness :
  spp_invalid (take 32 sample_frame) = false
  ∧ parse_data (take 32 sample_frame ++ drop 32 sample_frame)
    = parse_data (take 32 sample_frame)
  ∧ (length (take 32 sample_frame) ≠ 36%nat → ble_valid (take 32 sample_frame) = false).
Proof.
  apply short_serial_frames_decode_like_full_ones; [cbn; lia | reflexivity].
Defined.

Ltac key_present :=
  unfold parse_data; rewrite ?lookup_insert_ne by done;
  rewrite lookup_insert_eq; by eexists.

(** X12. [parse_data] never fails and always binds its eleven keys,
    whatever bytes it is given (a short or empty read included, whose
    missing bytes count as absent), so neither [debug_print] nor
    [influx_print] can meet a missing key.  [influx_print] prints seven
    fields: voltage, current, power, electricity (the "kwh" entry),
    frequency ("freq"), factor ("coef") and temperature; the price and the
    clock are decoded but not printed. *)
Theorem meter_printers_never_miss_a_key (raw_data : list byte) :
  (∃ values, debug_print (parse_data raw_data) = Ok values ∧ length values = 11%nat)
  ∧ (∃ fields,
       influx_print (parse_data raw_data) = Ok fields
       ∧ map fst fields
         = ["voltage"; "current"; "power"; "electricity"; "frequency"; "factor";
            "temperature"]
       ∧ map (λ f, Some f.2) fields
         = [parse_data raw_data !! "voltage"; parse_data raw_data !! "current";
            parse_data raw_data !! "power"; parse_data raw_data !! "kwh";
            parse_data raw_data !! "freq"; parse_data raw_data !! "coef";
            parse_data raw_data !! "temperature"]).
Proof.
  assert (∃ v, parse_data raw_data !! "voltage" = Some v) as [v1 H1] by key_present.
  assert (∃ v, parse_data raw_data !! "current" = Some v) as [v2 H2] by key_present.
  assert (∃ v, parse_data raw_data !! "power" = Some v) as [v3 H3] by key_present.
  assert (∃ v, parse_data raw_data !! "kwh" = Some v) as [v4 H4] by key_present.
  assert (∃ v, parse_data raw_data !! "price" = Some v) as [v5 H5] by key_present.
  assert (∃ v, parse_data raw_data !! "freq" = Some v) as [v6 H6] by key_present.
  assert (∃ v, parse_data raw_data !! "coef" = Some v) as [v7 H7] by key_present.
  assert (∃ v, parse_data raw_data !! "temperature" = Some v) as [v8 H8] by key_present.
  assert (∃ v, parse_data raw_data !! "h" = Some v) as [v9 H9] by key_present.
  assert (∃ v, parse_data raw_data !! "m" = Some v) as [v10 H10] by key_present.
  assert (∃ v, parse_data raw_data !! "s" = Some v) as [v11 H11] by key_present.
  unfold debug_print, influx_print, item.
  rewrite H1, H2, H3, H4, H5, H6, H7, H8, H9, H10, H11. cbn.
  split; eexists; (split; [reflexivity|]); [reflexivity|].
  split; reflexivity.
Qed.

(** The empty read decodes to zeros. *)
Example parse_data_of_nothing :
  parse_data [] !! "voltage" = Some (VFloat 0) ∧ parse_data [] !! "h" = Some (VInt 0).
Proof. split; reflexivity. Qed.

Section Sampling.
Context (debug : bool) (interval : Z) (Hinterval : 0 < interval).

#[local] Abbreviation spp_iteration := (spp_iteration debug interval).
#[local] Abbreviation spp_loop := (spp_loop debug interval).
#[local] Abbreviation notify_cb := (notify_cb debug interval).
#[local] Abbreviation notify_all := (notify_all debug interval).

Lemma readings_app (l1 l2 : list event) :
  readings (l1 ++ l2) = readings l1 ++ readings l2.
Proof. apply omap_app. Qed.

Lemma emit_count print_count worked data :
  (emit debug interval print_count worked data).2
  = (if print_count `mod` interval =? 0 then 0 else print_count) + 1.
Proof.
  unfold emit. by destruct (negb worked), debug, (print_count `mod` interval =? 0).
Qed.

Lemma sampled_mod {A} (k k' : Z) (l : list A) :
  k `mod` interval = k' `mod` interval →
  sampled interval k l = sampled interval k' l.
Proof using Hinterval.
  revert k k'. induction l as [|x l IH]; intros k k' Hk; [reflexivity|].
  cbn [sampled]. rewrite Hk.
  rewrite (IH (k + 1) (k' + 1)); [reflexivity|].
  by rewrite (Z.add_mod k), (Z.add_mod k'), Hk by lia.
Qed.

(** After a frame was handled at count [k], the count stands for [k + 1]. *)
Lemma sampled_after_emit {A} (k : Z) (l : list A) :
  sampled interval ((if k `mod` interval =? 0 then 0 else k) + 1) l
  = sampled interval (k + 1) l.
Proof using Hinterval.
  destruct (k `mod` interval =? 0) eqn:Hk; [|reflexivity].
  apply sampled_mod. apply Z.eqb_eq in Hk.
  rewrite <- (Z.add_mod_idemp_l k 1) by lia. by rewrite Hk.
Qed.

(** X13. As long as [run_spp] does not give up, the readings it prints are
    those of every [interval]-th valid frame, counted over the valid frames
    only: invalid reads in between neither print nor advance the count. *)
Theorem serial_path_prints_every_nth_valid_frame
    (st st' : spp_locals) (frames : list (list byte)) :
  (spp_loop st frames).2 = SppPending st' →
  readings (spp_loop st frames).1
  = map parse_data
      (sampled interval (print_count st)
         (filter (λ raw_data, spp_invalid raw_data = false) frames)).
Proof using Hinterval.
  revert st. induction frames as [|f frames IH]; intros st Hrun; [reflexivity|].
  cbn [Meter.spp_loop] in Hrun |- *.
  destruct (spp_invalid f) eqn:Hf.
  - rewrite filter_cons_False by (by rewrite Hf).
    rewrite (spp_iteration_invalid _ _ _ _ Hf) in Hrun |- *.
    destruct (reconnect_threshold <? reconnect_count st); [discriminate Hrun|].
    specialize (IH {| print_count := print_count st;
                      reconnect_count := reconnect_count st + 1;
                      worked := false |}).
    destruct (spp_loop _ frames) as [evs x]. cbn [fst snd] in *.
    by rewrite readings_app, IH.
  - rewrite filter_cons_True by done.
    rewrite (spp_iteration_valid _ _ _ _ Hf) in Hrun |- *.
    specialize (IH {| print_count :=
                        (emit debug interval (print_count st) (worked st) (parse_data f)).2;
                      reconnect_count := 0; worked := true |}).
    destruct (spp_loop _ frames) as [evs x]. cbn [fst snd print_count] in *.
    rewrite readings_app, readings_emit, IH by done.
    rewrite emit_count, sampled_after_emit. cbn [sampled].
    by destruct (print_count st `mod` interval =? 0).
Qed.

(** X14. Over the notifications of a session, [notify_cb] prints the
    reading of every [interval]-th valid frame (36 bytes with the header),
    counted over the valid frames only. *)
Theorem notifications_print_every_nth_valid_frame
    (st : ble_locals) (notifications : list (list byte)) :
  readings (notify_all st notifications).1
  = map parse_data
      (sampled interval (ble_print_count st)
         (filter (λ data, ble_valid data = true) notifications)).
Proof using Hinterval.
  revert st. induction notifications as [|data rest IH]; intros st; [reflexivity|].
  cbn [MeterOut.notify_all]. unfold Meter.notify_cb.
  destruct (ble_valid data) eqn:Hdata.
  - rewrite filter_cons_True by done.
    pose proof (readings_emit debug interval (ble_print_count st) (ble_worked st)
                  (parse_data data)) as Hr.
    pose proof (emit_count (ble_print_count st) (ble_worked st) (parse_data data)) as Hc.
    destruct (emit _ _ _ _ _) as [evs pc]. cbn [fst snd] in Hr, Hc. subst pc.
    specialize (IH {| ble_print_count :=
                        (if ble_print_count st `mod` interval =? 0
                         then 0 else ble_print_count st) + 1;
                      ble_worked := true |}).
    destruct (notify_all _ rest) as [evs' st'']. cbn [fst ble_print_count] in *.
    rewrite (readings_app (WatchDogTouch :: evs) evs'), IH.
    change (readings (WatchDogTouch :: evs)) with (readings evs). rewrite Hr.
    rewrite sampled_after_emit. cbn [sampled].
    by destruct (ble_print_count st `mod` interval =? 0).
  - rewrite filter_cons_False by (by rewrite Hdata).
    specialize (IH {| ble_print_count := ble_print_count st; ble_worked := false |}).
    destruct (notify_all _ rest) as [evs' st'']. exact IH.
Qed.

End Sampling.

Lemma serial_path_prints_every_nth_valid_frame_witness :
  readings (spp_loop false 3 {| print_count := 0; reconnect_count := 0; worked := false |}
              (replicate 7 sample_frame)).1
  = map parse_data
      (sampled 3 0 (filter (λ raw_data, spp_invalid raw_data = false)
                      (replicate 7 sample_frame))).
Proof.
  apply (serial_path_prints_every_nth_valid_frame false 3 ltac:(lia)
           {| print_count := 0; reconnect_count := 0; worked := false |}
           {| print_count := 1; reconnect_count := 0; worked := true |}).
  reflexivity.
Defined.

Lemma notifications_print_every_nth_valid_frame_witness :
  readings (notify_all false 3 {| ble_print_count := 0; ble_worked := false |}
              [sample_frame; []; sample_frame; sample_frame; sample_frame]).1
  = map parse_data
      (sampled 3 0 (filter (λ data, ble_valid data = true)
                      [sample_frame; []; sample_frame; sample_frame; sample_frame])).
Proof.
  apply (notifications_print_every_nth_valid_frame false 3 ltac:(lia)
           {| ble_print_count := 0; ble_worked := false |}).
Defined.

(** Seven valid frames at interval 3: the first, the fourth and the
    seventh are printed. *)
Example three_of_seven_frames_printed :
  length (readings (run_spp false 3 (Opened (replicate 7 sample_frame) None)).1) = 3%nat.
Proof. reflexivity. Qed.

Section GivingUp.
Context (debug : bool) (interval : Z).

#[local] Abbreviation spp_loop' := (Meter.spp_loop debug interval).
#[local] Abbreviation spp_iteration' := (Meter.spp_iteration debug interval).

(** If the loop raises from count [c], it raises "too many errors" at a
    frame [last] after handling the frames [seen] before it, and the
    frames it handled end with a run of invalid ones: [22 - c] of them
    when there was nothing before, 22 otherwise.  The frames behind [last]
    are not looked at. *)
Lemma spp_loop_raised (frames : list (list byte)) (st : spp_locals) evs e :
  0 ≤ reconnect_count st ≤ 21 →
  spp_loop' st frames = (evs, SppRaised e) →
  e = too_many_errors
  ∧ ∃ pre bad rest,
      frames = pre ++ bad ++ rest
      ∧ Forall (λ r, spp_invalid r = true) bad
      ∧ ((pre = [] ∧ Z.of_nat (length bad) = 22 - reconnect_count st)
         ∨ length bad = 22%nat)
      ∧ ∃ seen last st',
          pre ++ bad = seen ++ [last]
          ∧ spp_loop' st seen = (evs, SppPending st')
          ∧ spp_iteration' st' last = ([], Raises too_many_errors).
Proof.
  revert st evs. induction frames as [|f frames IH]; intros st evs Hrc Hrun;
    [discriminate Hrun|].
  cbn [Meter.spp_loop] in Hrun.
  destruct (spp_iteration' st f) as [evs0 c] eqn:Hiter.
  destruct c as [st1|e1].
  - destruct (spp_loop' st1 frames) as [evs' x] eqn:Hrec.
    injection Hrun as <- ->.
    assert (Hst1 : 0 ≤ reconnect_count st1 ≤ 21
                   ∧ (spp_invalid f = true
                      ∧ reconnect_count st1 = reconnect_count st + 1
                      ∨ reconnect_count st1 = 0)).
    { destruct (spp_invalid f) eqn:Hf.
      - rewrite (spp_iteration_invalid _ _ _ _ Hf) in Hiter.
        destruct (reconnect_threshold <? reconnect_count st) eqn:Hthr;
          [discriminate Hiter|].
        apply Z.ltb_ge in Hthr. unfold reconnect_threshold in Hthr.
        injection Hiter as <- <-. cbn. split; [lia|by left].
      - rewrite (spp_iteration_valid _ _ _ _ Hf) in Hiter.
        injection Hiter as <- <-. cbn. split; [lia|by right]. }
    destruct Hst1 as [Hrc1 Hstep].
    apply IH in Hrec
      as (-> & pre & bad & rest & -> & Hbad & Hlen & seen & last & st' & Hseen & Hloop & Hlast);
      [|exact Hrc1].
    split; [reflexivity|].
    assert (Hhandled : ∀ pre' bad', pre' ++ bad' = f :: pre ++ bad →
              ∃ seen0 last0 st0,
                pre' ++ bad' = seen0 ++ [last0]
                ∧ spp_loop' st seen0 = (evs0 ++ evs', SppPending st0)
                ∧ spp_iteration' st0 last0 = ([], Raises too_many_errors)).
    { intros pre' bad' ->. exists (f :: seen), last, st'.
      split; [by rewrite Hseen|]. split; [|exact Hlast].
      cbn [Meter.spp_loop]. rewrite Hiter, Hloop. reflexivity. }
    destruct Hstep as [[Hf Hstep]|Hstep], Hlen as [[-> Hlen]|Hlen].
    + exists [], (f :: bad), rest. split; [reflexivity|]. split; [by constructor|].
      split; [left; split; [reflexivity|cbn [length]; lia]|]. by apply Hhandled.
    + exists (f :: pre), bad, rest. split; [reflexivity|]. split; [done|].
      split; [by right|]. by apply Hhandled.
    + exists [f], bad, rest. split; [reflexivity|]. split; [done|].
      split; [right; lia|]. by apply Hhandled.
    + exists (f :: pre), bad, rest. split; [reflexivity|]. split; [done|].
      split; [by right|]. by apply Hhandled.
  - injection Hrun as <- <-.
    destruct (spp_invalid f) eqn:Hf.
    + rewrite (spp_iteration_invalid _ _ _ _ Hf) in Hiter.
      destruct (reconnect_threshold <? reconnect_count st) eqn:Hthr;
        [|discriminate Hiter].
      apply Z.ltb_lt in Hthr. unfold reconnect_threshold in Hthr.
      injection Hiter as <- <-. split; [reflexivity|].
      exists [], [f], frames. split; [reflexivity|]. split; [by constructor|].
      split; [left; split; [reflexivity|cbn; lia]|].
      exists [], f, st. split; [reflexivity|]. split; [reflexivity|].
      rewrite (spp_iteration_invalid _ _ _ _ Hf).
      replace (reconnect_threshold <? reconnect_count st) with true
        by (symmetry; apply Z.ltb_lt; unfold reconnect_threshold; lia).
      reflexivity.
    + rewrite (spp_iteration_valid _ _ _ _ Hf) in Hiter. discriminate Hiter.
Qed.

(** X15. [run_spp] raises for three reasons only.  Either
    [serial.Serial] raised, before anything was logged, or a [ser.read]
    raised once the reads before it had been handled, and the exception
    of the driver leaves [run_spp] unchanged; or [run_spp] gave up with
    its own "too many errors", and then the 22 frames it handled last,
    the one it raised at included, were all invalid, one after the other:
    a valid frame among them prevents it.  ([debug_print] and
    [influx_print] are taken to return.) *)
Theorem serial_path_raises_for_three_reasons
    (port : port_input) (evs : list event) (e : exn) :
  run_spp debug interval port = (evs, SppRaised e) →
  (port = OpenRaises e ∧ evs = [])
  ∨ (∃ reads evs' st,
       port = Opened reads (Some e)
       ∧ evs = SerialOpen :: evs'
       ∧ spp_loop' {| print_count := 0; reconnect_count := 0; worked := false |}
           (fetch reads)
         = (evs', SppPending st))
  ∨ (e = too_many_errors
     ∧ ∃ reads failure evs' pre bad rest,
         port = Opened reads failure
         ∧ evs = SerialOpen :: evs'
         ∧ fetch reads = pre ++ bad ++ rest
         ∧ length bad = 22%nat
         ∧ Forall (λ r, spp_invalid r = true) bad
         ∧ ∃ seen last st,
             pre ++ bad = seen ++ [last]
             ∧ spp_loop' {| print_count := 0; reconnect_count := 0; worked := false |} seen
               = (evs', SppPending st)
             ∧ spp_iteration' st last = ([], Raises too_many_errors)).
Proof.
  unfold run_spp. destruct port as [e0|reads failure].
  - intros [= <- <-]. by left.
  - destruct (spp_loop' _ (fetch reads)) as [evs' x] eqn:Hrun.
    destruct x as [e0|st].
    + intros [= <- <-]. right. right.
      apply spp_loop_raised in Hrun
        as (-> & pre & bad & rest & Hfetch & Hbad & Hlen & Hhandled); [|cbn; lia].
      split; [reflexivity|]. exists reads, failure, evs', pre, bad, rest.
      split; [reflexivity|]. split; [reflexivity|]. split; [exact Hfetch|].
      split; [|split; [exact Hbad|exact Hhandled]].
      cbn [reconnect_count] in Hlen. destruct Hlen as [[_ Hlen]|Hlen]; lia.
    + destruct failure as [e0|]; [|discriminate].
      intros [= <- <-]. right. left. by exists reads, evs', st.
Qed.

End GivingUp.

Lemma serial_path_raises_for_three_reasons_witness :
  ∃ pre bad rest,
    fetch (sample_frame :: replicate 22 [xff]) = pre ++ bad ++ rest
    ∧ length bad = 22%nat
    ∧ Forall (λ r, spp_invalid r = true) bad.
Proof.
  destruct (serial_path_raises_for_three_reasons false 3
              (Opened (sample_frame :: replicate 22 [xff]) None)
              (run_spp false 3 (Opened (sample_frame :: replicate 22 [xff]) None)).1
              too_many_errors eq_refl)
    as [[Hport _]|[(reads & evs' & st & Hport & _)
                  |(_ & reads & failure & evs' & pre & bad & rest
                      & Hport & _ & Hfetch & Hlen & Hbad & _)]].
  - discriminate Hport.
  - discriminate Hport.
  - injection Hport as <- <-. by exists pre, bad, rest.
Defined.

End MeterOutSpec.

(** ** The sensor arguments of [main] *)

Module BlitzMainSpec.
Import BlitzMain.

Lemma split_not_nil (sep : Ascii.ascii) (s : string) : split sep s ≠ [].
Proof.
  destruct s as [|c rest]; cbn; [done|].
  destruct (Ascii.eqb c sep); [done|]. by destruct (split sep rest).
Qed.

(** A string with [n] separators splits into [n + 1] pieces. *)
Lemma split_length (sep : Ascii.ascii) (s : string) :
  length (split sep s) = S (occurrences sep s).
Proof.
  induction s as [|c rest IH]; [reflexivity|].
  cbn [split occurrences]. destruct (Ascii.eqb c sep).
  - cbn. by rewrite IH.
  - pose proof (split_not_nil sep rest).
    destruct (split sep rest) as [|piece pieces]; [done|]. exact IH.
Qed.

(** No piece contains the separator. *)
Lemma split_pieces (sep : Ascii.ascii) (s : string) :
  Forall (λ piece, occurrences sep piece = 0%nat) (split sep s).
Proof.
  induction s as [|c rest IH]; [by repeat constructor|].
  cbn [split]. destruct (Ascii.eqb c sep) eqn:Hc.
  - by constructor.
  - destruct (split sep rest) as [|piece pieces]; [|inversion IH; subst].
    + repeat constructor. cbn. by rewrite Hc.
    + constructor; [|done]. cbn. by rewrite Hc.
Qed.

Lemma split_without_separator (sep : Ascii.ascii) (s : string) :
  occurrences sep s = 0%nat → split sep s = [s].
Proof.
  induction s as [|c rest IH]; [done|].
  cbn [split occurrences]. destruct (Ascii.eqb c sep); [done|].
  intros Hrest. by rewrite IH.
Qed.

Lemma occurrences_append (c : Ascii.ascii) (s1 s2 : string) :
  occurrences c (String.append s1 s2) = (occurrences c s1 + occurrences c s2)%nat.
Proof.
  induction s1 as [|c' s1 IH]; [reflexivity|].
  change (String c' s1 +:+ s2) with (String c' (s1 +:+ s2)).
  cbn [occurrences]. rewrite IH. lia.
Qed.

Lemma append_empty (s : string) : s +:+ "" = s.
Proof.
  induction s as [|c s IH]; [reflexivity|].
  change (String c s +:+ "") with (String c (s +:+ "")). by rewrite IH.
Qed.

Lemma occurrences_join (c : Ascii.ascii) (pieces : list string) :
  Forall (λ piece, occurrences c piece = 0%nat) pieces →
  occurrences c (join pieces) = 0%nat.
Proof.
  induction 1 as [|piece pieces Hp Hps IH]; [reflexivity|].
  unfold join in *. cbn [fold_right]. by rewrite occurrences_append, Hp, IH.
Qed.

Section Main.
Context (int16 : string → result Z).

#[local] Abbreviation sensor_task := (sensor_task int16).
#[local] Abbreviation sensor_loop := (sensor_loop int16).
#[local] Abbreviation main := (main int16).

#[local] Abbreviation acceptable := (acceptable int16).

Lemma sensor_task_accepts (index : nat) (sensor : string) :
  (∃ t, sensor_task index sensor = Ok (Some t)) ↔ acceptable sensor.
Proof.
  unfold BlitzMain.acceptable, BlitzMain.sensor_task.
  pose proof (split_length (char ",") (strip sensor)) as Hlen.
  destruct (split (char ",") (strip sensor)) as [|f1 [|f2 [|f3 [|f4 rest]]]];
    cbn [length] in Hlen; cbn [lookup list_lookup].
  - lia.
  - split; [intros _; split; [lia|done] | by eexists].
  - split; [intros _; split; [lia|done] | by eexists].
  - split.
    + intros [t Ht]. split; [lia|]. intros field [= <-].
      destruct (int16 f3) as [z|e]; [by exists z | discriminate Ht].
    + intros [_ Hint]. destruct (Hint f3 eq_refl) as [z ->]. by eexists.
  - split; [by intros [t Ht] | intros [Hle _]; lia].
Qed.

Lemma sensor_task_latency (index : nat) (sensor : string) (t : task) :
  sensor_task index sensor = Ok (Some t) → latency t = Z.of_nat index * 20.
Proof.
  unfold BlitzMain.sensor_task.
  destruct (split (char ",") (strip sensor)) as [|f1 [|f2 [|f3 [|f4 rest]]]];
    try discriminate; try (by intros [= <-]).
  destruct (int16 f3); [by intros [= <-] | discriminate].
Qed.

Lemma sensor_loop_runs (sensors : list string) (index : nat) (tasks : list task) :
  (∃ out, sensor_loop index tasks sensors = Runs out)
  ↔ (tasks ≠ [] ∨ sensors ≠ []) ∧ Forall acceptable sensors.
Proof.
  revert index tasks. induction sensors as [|sensor rest IH]; intros index tasks.
  - cbn. destruct tasks; split.
    + by intros [out Hout].
    + intros [[?|?] _]; done.
    + intros _. split; [by left | constructor].
    + intros _. by eexists.
  - cbn [BlitzMain.sensor_loop]. rewrite Forall_cons.
    rewrite <- (sensor_task_accepts index sensor).
    destruct (sensor_task index sensor) as [[t|]|e].
    + rewrite IH. split.
      * intros [_ Hrest]. split; [by right|]. split; [by exists t | exact Hrest].
      * intros [_ [_ Hrest]]. split; [|exact Hrest]. left. by destruct tasks.
    + split; [by intros [out Hout] | by intros [_ [[t Ht] _]]].
    + split; [by intros [out Hout] | by intros [_ [[t Ht] _]]].
Qed.

(** X16. [main] starts its tasks exactly when at least one sensor is given
    and every sensor argument, once stripped, has at most two commas and,
    if it has two, a third field that [int(_, 16)] accepts.  (No sensor or
    a sensor with more fields ends in [exit(1)]; a bad mask in the
    exception of [int].) *)
Theorem main_starts_iff_sensors_well_formed (sensors : list string) :
  (∃ tasks, main sensors = Runs tasks) ↔ sensors ≠ [] ∧ Forall acceptable sensors.
Proof.
  unfold BlitzMain.main. rewrite sensor_loop_runs. split.
  - intros [[?|?] ?]; done.
  - intros [? ?]. split; [by right | done].
Qed.

Lemma sensor_loop_tasks (sensors : list string) (index : nat) (tasks out : list task) :
  sensor_loop index tasks sensors = Runs out →
  ∃ new, out = tasks ++ new
    ∧ length new = length sensors
    ∧ ∀ i t, new !! i = Some t →
        latency t = Z.of_nat (index + i) * 20
        ∧ ∃ sensor, sensors !! i = Some sensor
                    ∧ sensor_task (index + i) sensor = Ok (Some t).
Proof.
  revert index tasks. induction sensors as [|sensor rest IH]; intros index tasks.
  - cbn. destruct tasks; [discriminate|]. intros [= <-].
    exists []. rewrite app_nil_r. repeat split; done.
  - cbn [BlitzMain.sensor_loop].
    destruct (sensor_task index sensor) as [[t|]|e] eqn:Ht; try discriminate.
    intros (new & -> & Hlen & Hnew)%IH.
    exists (t :: new). split; [by rewrite <- app_assoc|]. split; [cbn; lia|].
    intros [|i] t' Hi.
    + injection Hi as <-. rewrite Nat.add_0_r.
      split; [by eapply sensor_task_latency|]. by exists sensor.
    + destruct (Hnew i t' Hi) as [Hlat (sensor' & Hs & Hst)].
      replace (index + S i)%nat with (S index + i)%nat by lia. split; [done|].
      by exists sensor'.
Qed.

(** X17. When [main] starts, it has made one task per sensor argument, in
    order, and the task of the [i]-th sensor (from 0) waits [20 * i]
    seconds before its first scan. *)
Theorem one_staggered_task_per_sensor (sensors : list string) (tasks : list task) :
  main sensors = Runs tasks →
  length tasks = length sensors
  ∧ ∀ i t, tasks !! i = Some t →
      latency t = 20 * Z.of_nat i
      ∧ ∃ sensor, sensors !! i = Some sensor ∧ sensor_task i sensor = Ok (Some t).
Proof.
  intros (new & -> & Hlen & Hnew)%sensor_loop_tasks. cbn [app].
  split; [exact Hlen|]. intros i t Hi.
  destruct (Hnew i t Hi) as [Hlat Hs]. cbn [Nat.add] in Hlat, Hs.
  split; [lia | exact Hs].
Qed.

(** X18. A sensor given as a bare address (no comma) gets the default
    mask 0xff, the stripped argument as its address, and as its name the
    last two colon-separated groups of the address glued together: the
    name never contains a colon, and it is the address itself when the
    address has none. *)
Theorem bare_address_names_the_task (index : nat) (sensor : string) :
  occurrences (char ",") (strip sensor) = 0%nat →
  ∃ t, sensor_task index sensor = Ok (Some t)
    ∧ address t = strip sensor
    ∧ mask t = 0xff
    ∧ name t = join (last_two (split (char ":") (strip sensor)))
    ∧ occurrences (char ":") (name t) = 0%nat
    ∧ (occurrences (char ":") (strip sensor) = 0%nat → name t = strip sensor).
Proof.
  intros Hcomma. unfold BlitzMain.sensor_task.
  rewrite (split_without_separator _ _ Hcomma).
  eexists. split; [reflexivity|]. cbn [address mask name].
  repeat split.
  - apply occurrences_join. unfold last_two.
    apply Forall_drop, split_pieces.
  - intros Hcolon. rewrite (split_without_separator _ _ Hcolon).
    unfold last_two, join. cbn. apply append_empty.
Qed.

End Main.

Lemma main_starts_iff_sensors_well_formed_example :
  main (λ _, Ok 0x7f) ["kitchen,AA:BB:CC:DD:EE:FF,7f"; " 11:22:33:44:55:66 "]
  = Runs [ {| name := "kitchen"; address := "AA:BB:CC:DD:EE:FF"; latency := 0;
              mask := 0x7f |};
           {| name := "5566"; address := "11:22:33:44:55:66"; latency := 20;
              mask := 0xff |} ].
Proof. reflexivity. Qed.

Lemma one_staggered_task_per_sensor_witness :
  length [ {| name := "a"; address := "b"; latency := 0; mask := 0xff |} ]
  = length ["a,b"].
Proof.
  exact (proj1 (one_staggered_task_per_sensor (λ _, Ok 0) ["a,b"] _ eq_refl)).
Defined.

Lemma bare_address_names_the_task_witness :
  ∃ t, sensor_task (λ _, Ok 0) 2 "11:22:33:44:55:66" = Ok (Some t)
    ∧ address t = strip "11:22:33:44:55:66"
    ∧ mask t = 0xff
    ∧ name t = join (last_two (split (char ":") (strip "11:22:33:44:55:66")))
    ∧ occurrences (char ":") (name t) = 0%nat
    ∧ (occurrences (char ":") (strip "11:22:33:44:55:66") = 0%nat
       → name t = strip "11:22:33:44:55:66").
Proof.
  apply (bare_address_names_the_task (λ _, Ok 0) 2 "11:22:33:44:55:66"). reflexivity.
Defined.

End BlitzMainSpec.

(** ** Ranges of the 16-bit fields *)

Module BlitzRangeSpec.
Import Blitz BlitzSpec BlitzRange.

(** All checks, run on each of the 65536 raw values. *)
Lemma range_check_all :
  forallb (λ b0, forallb (range_check b0) all_bytes) all_bytes = true.
Proof. vm_compute. reflexivity. Qed.

(** X19. For every raw 16-bit field the decoders stay in their physical
    ranges (binary64 comparisons): supply voltage in [0, 65.535] V, HTU21D
    temperature in [-46.85, 128.87], SHT4X temperature in [-45, 130],
    light in [0, 54612.5], and the BMP280 temperature, read as a signed
    little-endian value, in [-327.68, 327.67] and negative exactly when
    the top bit of its second byte is set. *)
Theorem sixteen_bit_fields_stay_in_range (b0 b1 : byte) :
  within 0 65.535 (supply_voltage [b0; b1]) = true
  ∧ within (-46.85) 128.87 (htu21d_temperature [b0; b1]) = true
  ∧ within (-45) 130 (sht4x_temperature [b0; b1]) = true
  ∧ within (-327.68) 327.67 (bmp280_temperature [b0; b1]) = true
  ∧ within 0 54612.5 (gy302_light [b0; b1]) = true
  ∧ negative (bmp280_temperature [b0; b1]) = (128 <=? byte_val b1).
Proof.
  pose proof range_check_all as H.
  rewrite forallb_forall in H.
  specialize (H b0 (proj1 (list_elem_of_In _ _) (elem_of_all_bytes b0))).
  rewrite forallb_forall in H.
  specialize (H b1 (proj1 (list_elem_of_In _ _) (elem_of_all_bytes b1))).
  unfold range_check in H.
  rewrite !andb_true_iff, bool_decide_eq_true in H. tauto.
Qed.

(** The extremes are reached. *)
Example bmp280_temperature_extremes :
  bmp280_temperature [x00; x80] = Ok (-327.68)%float
  ∧ bmp280_temperature [xff; x7f] = Ok 327.67%float
  ∧ bmp280_temperature [xff; xff] = Ok (-0.01)%float.
Proof. repeat split; reflexivity. Qed.

End BlitzRangeSpec.

(** ** The notification path of the meter *)

Module MeterBleSpec.
Import Meter MeterBle.

Section RunBle.
Context (debug : bool) (interval : Z).

#[local] Abbreviation deliver := (deliver debug interval).
#[local] Abbreviation poll := (poll debug interval).
#[local] Abbreviation connected := (connected debug interval).
#[local] Abbreviation session := (session debug interval).
#[local] Abbreviation sessions := (sessions debug interval).

Lemma ble_sleeps_app (l1 l2 : list event) : sleeps (l1 ++ l2) = sleeps l1 ++ sleeps l2.
Proof. apply omap_app. Qed.

Lemma touches_app (l1 l2 : list event) : touches (l1 ++ l2) = (touches l1 + touches l2)%nat.
Proof. unfold touches. by rewrite List.filter_app, length_app. Qed.

Lemma sleeps_callbacks (evs : list Meter.event) : sleeps (map Callback evs) = [].
Proof. induction evs as [|ev evs IH]; [reflexivity|exact IH]. Qed.

(** The callback touches the watchdog once, first thing, whatever it
    received. *)
Lemma notify_cb_touches (st : ble_locals) (data : list byte) :
  touches (map Callback (notify_cb debug interval st data).1) = 1%nat.
Proof.
  unfold notify_cb, emit.
  destruct (ble_valid data); [|reflexivity].
  by destruct (negb (ble_worked st)), debug, (ble_print_count st `mod` interval =? 0).
Qed.

Lemma deliver_effects (st : ble_locals) (notifications : list (list byte)) :
  touches (deliver st notifications).1 = length notifications
  ∧ sleeps (deliver st notifications).1 = [].
Proof.
  revert st. induction notifications as [|data rest IH]; intros st; [done|].
  cbn [MeterBle.deliver].
  pose proof (notify_cb_touches st data) as Ht.
  destruct (notify_cb debug interval st data) as [evs st']. cbn [fst] in Ht.
  destruct (IH st') as [IHt IHs]. destruct (deliver st' rest) as [evs' st''].
  cbn [fst] in *. rewrite touches_app, ble_sleeps_app, Ht, IHt, IHs, sleeps_callbacks. done.
Qed.

(** X20. While the meter is connected, [run_ble] itself only sleeps, 10
    seconds at a time: in the polling loop the watchdog is touched exactly
    once per notification received (by [notify_cb], valid frame or not)
    and never by the loop.  The watchdog, armed once at the start of
    [run_ble] and never disarmed, is therefore kept alive by the meter's
    notifications only. *)
Theorem polling_touches_watchdog_once_per_notification
    (st : ble_locals) (polls : list (list (list byte))) :
  touches (poll st polls).1 = length (concat polls)
  ∧ sleeps (poll st polls).1 = replicate (length polls) 10%float.
Proof.
  revert st. induction polls as [|notifications rest IH]; intros st; [done|].
  cbn [MeterBle.poll].
  destruct (deliver_effects st notifications) as [Ht Hs].
  destruct (deliver st notifications) as [evs st']. cbn [fst] in Ht, Hs.
  destruct (IH st') as [IHt IHs]. destruct (poll st' rest) as [evs' st''].
  cbn [fst concat length replicate] in *.
  change (touches (Sleep 10 :: evs ++ evs')) with (touches (evs ++ evs')).
  change (sleeps (Sleep 10 :: evs ++ evs')) with (10%float :: sleeps (evs ++ evs')).
  rewrite touches_app, ble_sleeps_app, Ht, Hs, IHt, IHs, length_app. done.
Qed.

Lemma connected_until_disconnect (st : ble_locals) (pollss : list (list (list (list byte)))) :
  ∃ tr st',
    connected st (map Subscribed pollss ++ [NotConnected])
    = (tr ++ [WatchDogTouch; Log MsgDisconnected], LoopBroken st')
    ∧ sleeps tr = replicate (length (concat pollss)) 10%float.
Proof.
  revert st. induction pollss as [|polls rest IH]; intros st.
  - by exists [], st.
  - cbn [map app MeterBle.connected].
    destruct (polling_touches_watchdog_once_per_notification st polls) as [_ Hs].
    destruct (poll st polls) as [evs st1]. cbn [fst] in Hs.
    destruct (IH st1) as (tr & st' & -> & Htr).
    exists (WatchDogTouch :: evs ++ tr), st'. split.
    + cbn [app]. by rewrite app_assoc.
    + change (sleeps (WatchDogTouch :: evs ++ tr)) with (sleeps (evs ++ tr)).
      rewrite ble_sleeps_app, Hs, Htr. cbn [concat].
      by rewrite length_app, replicate_add.
Qed.

(** X21. When a connection ends by a disconnect, [run_ble] reconnects at
    once: the pass ends with the "Disconnected" line, its only pauses were
    the 10-second polls, and the next pass follows without any back-off.
    A pause of 10, 20 or 60 seconds is made only after a caught
    exception. *)
Theorem disconnect_is_followed_by_no_pause
    (st : ble_locals) (pollss : list (list (list (list byte)))) :
  ∃ tr st',
    session st (Entered (map Subscribed pollss ++ [NotConnected]))
    = (tr ++ [WatchDogTouch; Log MsgDisconnected], Next st')
    ∧ sleeps tr = replicate (length (concat pollss)) 10%float
    ∧ (∀ more,
         sessions st (Entered (map Subscribed pollss ++ [NotConnected]) :: more)
         = ((tr ++ [WatchDogTouch; Log MsgDisconnected]) ++ (sessions st' more).1,
            (sessions st' more).2))
    ∧ (∀ e, sleeps (handler e) = [10%float] ∨ sleeps (handler e) = [20%float]
            ∨ sleeps (handler e) = [60%float]).
Proof.
  destruct (connected_until_disconnect
              {| ble_print_count := ble_print_count st; ble_worked := false |} pollss)
    as (tr & st' & Hc & Htr).
  assert (Hs : session st (Entered (map Subscribed pollss ++ [NotConnected]))
               = (([WatchDogTouch; Log MsgConnecting; Log MsgConnected] ++ tr)
                    ++ [WatchDogTouch; Log MsgDisconnected], Next st')).
  { unfold MeterBle.session. rewrite Hc. reflexivity. }
  exists ([WatchDogTouch; Log MsgConnecting; Log MsgConnected] ++ tr), st'.
  split; [exact Hs|]. split; [exact Htr|]. split.
  - intros more. cbn [MeterBle.sessions]. rewrite Hs.
    by destruct (sessions st' more).
  - intros e. unfold handler.
    destruct (isinstance e BleakDeviceNotFoundError); [by right; right|].
    destruct (str_in _ _); [by right; left | by left].
Qed.

End RunBle.

(** Twelve polls without a notification: two minutes asleep, the watchdog
    never touched. *)
Example silent_meter_starves_the_watchdog :
  touches (poll false 3 {| ble_print_count := 0; ble_worked := false |}
             (replicate 12 [])).1 = 0%nat
  ∧ sleeps (poll false 3 {| ble_print_count := 0; ble_worked := false |}
              (replicate 12 [])).1 = replicate 12 10%float.
Proof. split; reflexivity. Qed.

End MeterBleSpec.
